(** * Session lifecycle and analysis reconciliation: a shallow embedding

    JavaScript strings are modelled as [string] over ASCII characters,
    JavaScript numbers as rationals [Q] (exact arithmetic: no NaN, no
    rounding), [undefined] with [option]. Where rounding matters
    ([normalizeScore]) numbers are IEEE-754 binary64 values, Stdlib's
    [spec_float] with 53 bits of precision and [emax = 1024]. *)

From Stdlib Require Import Bool Ascii String List ZArith QArith Qround Lia Lqa.
From Stdlib Require Import Numbers.DecimalString Floats.SpecFloat.
Import ListNotations.
Open Scope string_scope.

(** ** JavaScript string primitives *)
Module Js.

(** [String.prototype.startsWith]. *)
Definition startsWith (s pre : string) : bool := String.prefix pre s.

(** [String.prototype.includes]: [pat] occurs at some position of [s]. *)
Fixpoint includes (s pat : string) : bool :=
  String.prefix pat s ||
  match s with
  | EmptyString => false
  | String _ s' => includes s' pat
  end.

Definition ascii_code (c : ascii) : nat := nat_of_ascii c.

(** [toLowerCase] on one ASCII character. *)
Definition lower_char (c : ascii) : ascii :=
  let n := ascii_code c in
  if (65 <=? n)%nat && (n <=? 90)%nat then ascii_of_nat (n + 32) else c.

(** [String.prototype.toLowerCase]. *)
Fixpoint toLowerCase (s : string) : string :=
  match s with
  | EmptyString => EmptyString
  | String c s' => String (lower_char c) (toLowerCase s')
  end.

(** White space of [\s] and of [trim] (ASCII part: tab, LF, VT, FF, CR, space). *)
Definition is_ws (c : ascii) : bool :=
  let n := ascii_code c in
  (n =? 32)%nat || ((9 <=? n)%nat && (n <=? 13)%nat).

(** Word characters of [\b]: [A-Za-z0-9_]. *)
Definition is_word (c : ascii) : bool :=
  let n := ascii_code c in
  ((48 <=? n)%nat && (n <=? 57)%nat) || ((65 <=? n)%nat && (n <=? 90)%nat) ||
  ((97 <=? n)%nat && (n <=? 122)%nat) || (n =? 95)%nat.

Fixpoint trimStart (s : string) : string :=
  match s with
  | EmptyString => EmptyString
  | String c s' => if is_ws c then trimStart s' else s
  end.

Fixpoint trimEnd (s : string) : string :=
  match s with
  | EmptyString => EmptyString
  | String c s' =>
      let r := trimEnd s' in
      if is_ws c && String.eqb r EmptyString then EmptyString else String c r
  end.

(** [String.prototype.trim]. *)
Definition trim (s : string) : string := trimEnd (trimStart s).

(** [Array.prototype.join(sep)] on strings. *)
Fixpoint join (sep : string) (l : list string) : string :=
  match l with
  | [] => EmptyString
  | [x] => x
  | x :: l' => x ++ sep ++ join sep l'
  end.

(** [s.split(/\s+/)]: a run of white space is one separator. *)
Fixpoint split_ws_aux (cur : string) (in_sep : bool) (s : string) : list string :=
  match s with
  | EmptyString => [cur]
  | String c s' =>
      if is_ws c then
        if in_sep then split_ws_aux cur true s'
        else cur :: split_ws_aux EmptyString true s'
      else split_ws_aux (cur ++ String c EmptyString) false s'
  end.

Definition split_ws (s : string) : list string := split_ws_aux EmptyString false s.

(** [s.split(' ')[0]]: the text before the first space. *)
Fixpoint before_space (s : string) : string :=
  match s with
  | EmptyString => EmptyString
  | String c s' => if Ascii.eqb c " "%char then EmptyString else String c (before_space s')
  end.

(** Truthiness of an optional string ([undefined], [null] and [""] are falsy). *)
Definition truthy_str (s : option string) : bool :=
  match s with
  | Some x => negb (String.eqb x EmptyString)
  | None => false
  end.

(** [x || d] for an optional number: [undefined] and [0] select [d]. *)
Definition or_num (x : option Q) (d : Q) : Q :=
  match x with
  | Some q => if Qeq_bool q 0 then d else q
  | None => d
  end.

(** [Math.round]: round half up. *)
Definition round (q : Q) : Z := Qfloor (q + (1 # 2))%Q.

(** Decimal rendering of a natural number, as in a template literal. *)
Definition show_N (n : N) : string := NilEmpty.string_of_uint (N.to_uint n).

End Js.

(** ** Shared utilities (src/unnamed/part_000) *)
(** ** IEEE-754 binary64 numbers *)
Module F64.

Definition t := spec_float.

(** Round-to-nearest-even binary64 multiplication and division. *)
Definition mul : t -> t -> t := SFmul 53 1024.
Definition div : t -> t -> t := SFdiv 53 1024.

(** The double nearest to the integer [z]. *)
Definition of_Z (z : Z) : t := binary_normalize 53 1024 z 0 false.

(** The double a decimal literal [n / d] denotes: the correctly rounded
    quotient, when [n] and [d] are integers below 2^53 (exact doubles). *)
Definition lit (n d : Z) : t := div (of_Z n) (of_Z d).

Definition zero : t := S754_zero false.

(** Structural equality of two doubles. *)
Definition eqb (a b : t) : bool :=
  match a, b with
  | S754_zero s, S754_zero s' | S754_infinity s, S754_infinity s' => Bool.eqb s s'
  | S754_nan, S754_nan => true
  | S754_finite s m e, S754_finite s' m' e' =>
      Bool.eqb s s' && Pos.eqb m m' && Z.eqb e e'
  | _, _ => false
  end.

End F64.

Module SessionUtils.

Inductive SessionStatus :=
| completed | in_progress | demo | processing | active | analyzed | archived.

(** [normalizeSessionStatus(dbStatus, hasAnalysis?)]; an absent
    [hasAnalysis] is falsy, as [false]. *)
Definition normalizeSessionStatus (dbStatus : string) (hasAnalysis : option bool)
  : SessionStatus :=
  if String.eqb dbStatus "analyzed" then completed
  else if String.eqb dbStatus "completed" then
    (if match hasAnalysis with Some true => true | _ => false end
     then completed else processing)
  else if String.eqb dbStatus "active" then in_progress
  else if String.eqb dbStatus "processing" then processing
  else if String.eqb dbStatus "demo" then demo
  else if String.eqb dbStatus "archived" then archived
  else in_progress.

Inductive Scale := S10 | S100.

Definition Scale_eqb (a b : Scale) : bool :=
  match a, b with S10, S10 | S100, S100 => true | _, _ => false end.

(** [normalizeScore(score, fromScale, toScale)]; [score] is [number | undefined].
    [!score && score !== 0] holds for [undefined] and NaN (the falsy numbers
    other than +0 and -0); [*] and [/] are binary64 operations. *)
Definition normalizeScore (score : option F64.t) (fromScale toScale : Scale) : F64.t :=
  match score with
  | None | Some S754_nan => F64.zero
  | Some s =>
      if Scale_eqb fromScale toScale then s
      else match fromScale, toScale with
           | S10, S100 => F64.mul s (F64.of_Z 10)
           | S100, S10 => F64.div s (F64.of_Z 10)
           | _, _ => s
           end
  end.

(** [isDemoSession(sessionId?, status?)]. *)
Definition isDemoSession (sessionId status : option string) : bool :=
  if match status with Some s => String.eqb s "demo" | None => false end then true
  else match sessionId with
       | None => false
       | Some id =>
           if Js.startsWith id "demo-" then true
           else if Js.startsWith id "temp-" then true
           else if Js.includes id "demo" then true
           else false
       end.

End SessionUtils.

(** ** Transcript metrics engine (src/frontend/lib/analysis-utils.ts) *)
Module Metrics.

Record TranscriptMessage := {
  speaker : string;
  message : string;
  timestamp : option Q
}.

Record AnalysisMetrics := {
  talkTimeRatio : Q;
  fillerWordsCount : nat;
  speakingPaceWpm : Z;
  sentimentScore : Q
}.

Definition msg (sp m : string) : TranscriptMessage :=
  {| speaker := sp; message := m; timestamp := None |}.

(** [calculateTalkTimeRatio]. *)
Definition calculateTalkTimeRatio (transcript : list TranscriptMessage) : Q :=
  match transcript with
  | [] => 0%Q
  | _ =>
      let userMessages :=
        filter (fun m => let s := Js.toLowerCase (speaker m) in
                         Js.includes s "user" || Js.includes s "you" ||
                         Js.includes s "speaker_1") transcript in
      let totalMessages := length transcript in
      let userMessageCount := length userMessages in
      if (0 <? totalMessages)%nat
      then (inject_Z (Z.of_nat userMessageCount) / inject_Z (Z.of_nat totalMessages))%Q
      else 0%Q
  end.

(** [extractTranscriptText]: messages joined by one space, then trimmed. *)
Definition extractTranscriptText (transcript : list TranscriptMessage) : string :=
  match transcript with
  | [] => EmptyString
  | _ => Js.trim (Js.join " " (map message transcript))
  end.

(** *** Global regular-expression matching of [\bP\b] with flags [gi]

    [P] is a literal: the code escapes every regular-expression
    metacharacter of the filler (only [?] occurs in the lists). *)

Definition word_at (c : option ascii) : bool :=
  match c with Some c => Js.is_word c | None => false end.

(** [\b] between the characters [a] and [b] ([None]: outside the text). *)
Definition boundary (a b : option ascii) : bool := xorb (word_at a) (word_at b).

(** Case-insensitive ([i] flag) match of the literal [pat] at the start of [s]. *)
Fixpoint prefix_ci (pat s : string) : bool :=
  match pat, s with
  | EmptyString, _ => true
  | String _ _, EmptyString => false
  | String p pat', String c s' =>
      Ascii.eqb (Js.lower_char p) (Js.lower_char c) && prefix_ci pat' s'
  end.

(** The regular expression matches at the start of [s]; [prev] is the
    character before that position. *)
Definition match_at (pat : string) (prev : option ascii) (s : string) : bool :=
  let before_end :=
    match String.length pat with
    | O => prev
    | S k => String.get k s
    end in
  boundary prev (String.get 0 s) && prefix_ci pat s &&
  boundary before_end (String.get (String.length pat) s).

(** The scan of [text.match(regex)] with the global flag: after a match the
    search resumes at its end ([skip] characters are passed over). The
    patterns are non-empty, so no match starts at the end of the text. *)
Fixpoint scan (pat : string) (skip : nat) (prev : option ascii) (s : string) : nat :=
  match s with
  | EmptyString => O
  | String c s' =>
      match skip with
      | S k => scan pat k (Some c) s'
      | O =>
          if match_at pat prev s
          then S (scan pat (String.length pat - 1) (Some c) s')
          else scan pat O (Some c) s'
      end
  end.

(** [matches ? matches.length : 0] for [text.match(new RegExp('\\b'+p+'\\b','gi'))]. *)
Definition count_matches (pat text : string) : nat := scan pat O None text.

Definition fillerWords : list string :=
  [ "um"; "uh"; "er"; "ah"; "like"; "you know"; "sort of"; "kind of";
    "basically"; "actually"; "literally"; "totally"; "right?"; "okay?";
    "so"; "well"; "i mean"; "you see"; "let me think" ].

(** [countFillerWords]. *)
Definition countFillerWords (transcript : list TranscriptMessage) : nat :=
  let text := Js.toLowerCase (extractTranscriptText transcript) in
  fold_left (fun count filler => (count + count_matches filler text)%nat) fillerWords O.

Definition positiveWords : list string :=
  [ "great"; "excellent"; "good"; "amazing"; "wonderful"; "fantastic";
    "perfect"; "love"; "like"; "enjoy"; "happy"; "pleased"; "satisfied";
    "confident"; "excited"; "interested"; "impressive"; "outstanding" ].

Definition negativeWords : list string :=
  [ "bad"; "terrible"; "awful"; "horrible"; "hate"; "dislike"; "angry";
    "frustrated"; "disappointed"; "concerned"; "worried"; "difficult";
    "problem"; "issue"; "challenging"; "confusing"; "unclear"; "wrong" ].

(** [calculateSentimentScore]. *)
Definition calculateSentimentScore (transcript : list TranscriptMessage) : Q :=
  let text := Js.toLowerCase (extractTranscriptText transcript) in
  let positiveCount :=
    fold_left (fun c w => (c + count_matches w text)%nat) positiveWords O in
  let negativeCount :=
    fold_left (fun c w => (c + count_matches w text)%nat) negativeWords O in
  let totalSentimentWords := (positiveCount + negativeCount)%nat in
  if (totalSentimentWords =? 0)%nat then (1 # 2)%Q
  else (inject_Z (Z.of_nat positiveCount) / inject_Z (Z.of_nat totalSentimentWords))%Q.

(** [calculateSpeakingPace]. *)
Definition calculateSpeakingPace (transcript : list TranscriptMessage)
    (durationSeconds : Q) : Z :=
  if Qeq_bool durationSeconds 0 || Qle_bool durationSeconds 0 then 0%Z
  else
    let text := extractTranscriptText transcript in
    let wordCount :=
      length (filter (fun w => (0 <? String.length w)%nat) (Js.split_ws text)) in
    let durationMinutes := (durationSeconds / 60)%Q in
    if negb (Qle_bool durationMinutes 0)
    then Js.round (inject_Z (Z.of_nat wordCount) / durationMinutes)%Q
    else 0%Z.

(** [generateAnalysisMetrics]. *)
Definition generateAnalysisMetrics (transcript : list TranscriptMessage)
    (durationSeconds : Q) : AnalysisMetrics :=
  {| talkTimeRatio := calculateTalkTimeRatio transcript;
     fillerWordsCount := countFillerWords transcript;
     speakingPaceWpm := calculateSpeakingPace transcript durationSeconds;
     sentimentScore := calculateSentimentScore transcript |}.

(** [createMockTranscript]. *)
Definition createMockTranscript : list TranscriptMessage :=
  [ msg "user" "Hi there! I'm really excited to talk about our new product. It's absolutely amazing and I think you'll love it.";
    msg "client" "Tell me more about it. What makes it special?";
    msg "user" "Well, um, it's like really good because, you know, it solves the main problem that, uh, most people have.";
    msg "client" "I see. Can you be more specific about the problem it solves?";
    msg "user" "Absolutely! It basically saves time and, sort of, makes everything more efficient for your team." ].

End Metrics.

(** ** JSON values (the bodies exchanged with the provider and the store) *)
Module Json.
#[local] Set Warnings "-register-all".

Inductive t :=
| JNull
| JBool (b : bool)
| JNum (q : Q)
| JStr (s : string)
| JArr (l : list t)
| JObj (fields : list (string * t)).

(** Own property lookup on an object as produced by [JSON.parse]. *)
Fixpoint get (k : string) (fields : list (string * t)) : option t :=
  match fields with
  | [] => None
  | (k', v) :: r => if String.eqb k k' then Some v else get k r
  end.

(** Property assignment as in an object spread [{...o, k: v}]: an existing
    key keeps its position, a new key is appended. *)
Fixpoint set (k : string) (v : t) (fields : list (string * t)) : list (string * t) :=
  match fields with
  | [] => [(k, v)]
  | (k', v') :: r => if String.eqb k k' then (k', v) :: r else (k', v') :: set k v r
  end.

Definition has (k : string) (fields : list (string * t)) : bool :=
  match get k fields with Some _ => true | None => false end.

Definition strs (l : list string) : t := JArr (map JStr l).

End Json.

(** ** Analyze route (src/unnamed/part_002) *)
Module Analyze.
Import Metrics Json.

Record UserInfo := { ui_name : option string; ui_company : option string; ui_role : option string }.

(** A [Math.random()] draw: [num / (num + rest + 1)], always in [[0, 1)]. *)
Record Draw := { d_num : N; d_rest : N }.

Definition draw_val (d : Draw) : Q :=
  (inject_Z (Z.of_N (d_num d)) / inject_Z (Z.of_N (d_num d + d_rest d + 1)))%Q.

(** The four draws of [generateMockAnalysis], in evaluation order. *)
Record MockRandom := {
  r_score0 : Draw;     (* first scenario's overallScore *)
  r_score1 : Draw;     (* second scenario's overallScore *)
  r_scenario : Draw;   (* scenario index *)
  r_duration : Draw    (* duration *)
}.

Record Scenario := {
  sc_title : string;
  sc_overallScore : Z;
  sc_strengths : list string;
  sc_areasForImprovement : list string;
  sc_effectiveTechniques : list string;
  sc_techniquesNeedingWork : list string;
  sc_objectionHandling : Z * string;
  sc_closingEffectiveness : Z * string;
  sc_keyRecommendations : list string;
  sc_detailedAnalysis : string
}.

Definition scenario0 (userName : string) (rnd : MockRandom) : Scenario :=
    {| sc_title := "Sales Discovery Call Analysis";
       sc_overallScore := Qfloor (draw_val (r_score0 rnd) * 3 + 5);
       sc_strengths :=
         [ "Initiated the conversation with a friendly greeting";
           "Expressed interest in understanding the prospect's needs";
           "Maintained professional tone throughout the interaction";
           "Showed enthusiasm about the product offering" ];
       sc_areasForImprovement :=
         [ "Lack of detailed questioning to uncover deeper needs";
           "Did not provide specific information about the courses";
           "No attempt to handle potential objections or concerns";
           "Missed opportunity to build rapport by not engaging further" ];
       sc_effectiveTechniques :=
         [ "Friendly greeting and introduction";
           "Open-ended needs assessment questions" ];
       sc_techniquesNeedingWork :=
         [ "Needs discovery"; "Product presentation"; "Objection handling";
           "Closing techniques" ];
       sc_objectionHandling :=
         (3%Z, "The conversation did not reach a stage where objections were handled, indicating a lack of depth in the sales process.");
       sc_closingEffectiveness :=
         (2%Z, "There were no closing attempts made during this conversation, suggesting a missed opportunity to advance the sales process.");
       sc_keyRecommendations :=
         [ "Ask open-ended questions to better understand the prospect's specific needs and challenges";
           "Provide detailed information about products that align with the prospect's interests";
           "Engage more with the prospect to build rapport and establish a connection";
           "Prepare to handle potential objections by anticipating common concerns";
           "Develop a closing strategy that encourages the prospect to take action" ];
       sc_detailedAnalysis :=
         "The salesperson, " ++ userName ++ ", started the conversation with a friendly greeting, which is a positive approach to establishing initial rapport. However, the interaction lacked depth in terms of needs discovery. " ++ userName ++ " did not ask further questions to explore the prospect's specific challenges or goals, which would have provided valuable insights for tailoring the presentation. Additionally, there was no detailed information shared about the offerings, leaving the prospect without a clear understanding of the value proposition. The conversation also missed opportunities to build rapport by not engaging with the prospect's introduction or expressing empathy towards their business goals. Overall, the interaction could benefit from more active listening, detailed questioning, and a structured approach to presenting solutions and handling objections." |}.

Definition scenario1 (userName : string) (rnd : MockRandom) : Scenario :=
    {| sc_title := "Product Demo Session Analysis";
       sc_overallScore := Qfloor (draw_val (r_score1 rnd) * 3 + 6);
       sc_strengths :=
         [ "Strong product knowledge demonstration";
           "Clear explanation of key features and benefits";
           "Good use of storytelling to illustrate value";
           "Maintained engagement throughout the presentation" ];
       sc_areasForImprovement :=
         [ "Limited customization based on prospect's specific needs";
           "Could have asked more qualifying questions";
           "Presentation was too feature-focused rather than benefit-focused";
           "No clear next steps defined at the end" ];
       sc_effectiveTechniques :=
         [ "Product demonstration with examples"; "Benefit-focused messaging";
           "Storytelling approach" ];
       sc_techniquesNeedingWork :=
         [ "Needs assessment"; "Question-based selling"; "Trial closing";
           "Next step definition" ];
       sc_objectionHandling :=
         (6%Z, "Some objections were addressed but could have been handled more systematically with better preparation.");
       sc_closingEffectiveness :=
         (4%Z, "Limited closing attempts were made. The conversation ended without a clear commitment or next step.");
       sc_keyRecommendations :=
         [ "Customize the demo based on the prospect's specific use case and industry";
           "Ask discovery questions before diving into the product demonstration";
           "Focus more on business outcomes rather than technical features";
           "Prepare and practice common objection responses";
           "Always conclude with a clear call-to-action and next steps" ];
       sc_detailedAnalysis :=
         "During this product demonstration, " ++ userName ++ " showed strong product knowledge and was able to articulate key features effectively. The presentation had good energy and maintained the prospect's attention throughout. However, the demo felt somewhat generic and could have been better tailored to the specific prospect's needs and use case. " ++ userName ++ " spent considerable time on features but could have connected these more directly to business outcomes and ROI. The session would have benefited from more discovery questions at the beginning to understand the prospect's current challenges and desired outcomes. While some objections were addressed, a more structured approach to objection handling would have been more effective. The session ended without a clear next step, which represents a missed opportunity to advance the sales process." |}.

Definition scenarios (userName : string) (rnd : MockRandom) : list Scenario :=
  [ scenario0 userName rnd; scenario1 userName rnd ].

Definition subscore (p : Z * string) : Json.t :=
  JObj [("score", JNum (inject_Z (fst p))); ("analysis", JStr (snd p))].

(** [generateMockAnalysis(userInfo?)]; [now_ms] is [Date.now()] and
    [now_iso] the serialised [new Date()]. *)
Definition generateMockAnalysis (userInfo : option UserInfo) (rnd : MockRandom)
    (now_ms : N) (now_iso : string) : Json.t :=
  let nm := match userInfo with
            | Some u => match ui_name u with Some n => Js.before_space n | None => EmptyString end
            | None => EmptyString end in
  let userName := if String.eqb nm EmptyString then "the salesperson" else nm in
  let scs := scenarios userName rnd in
  (* the index [Math.floor(random * 2)] is 0 or 1 for a draw in [0, 1) *)
  let scenario := nth (Z.to_nat (Qfloor (draw_val (r_scenario rnd) * 2))) scs
                      (scenario0 userName rnd) in
  JObj [ ("id", JStr ("demo-" ++ Js.show_N now_ms));
         ("title", JStr (sc_title scenario));
         ("duration", JNum (inject_Z (Qfloor (draw_val (r_duration rnd) * 10 + 15))));
         ("overallScore", JNum (inject_Z (sc_overallScore scenario)));
         ("date", JStr now_iso);
         ("strengths", strs (sc_strengths scenario));
         ("areasForImprovement", strs (sc_areasForImprovement scenario));
         ("effectiveTechniques", strs (sc_effectiveTechniques scenario));
         ("techniquesNeedingWork", strs (sc_techniquesNeedingWork scenario));
         ("objectionHandling", subscore (sc_objectionHandling scenario));
         ("closingEffectiveness", subscore (sc_closingEffectiveness scenario));
         ("keyRecommendations", strs (sc_keyRecommendations scenario));
         ("detailedAnalysis", JStr (sc_detailedAnalysis scenario)) ].

(** JavaScript truthiness of a JSON value. *)
Definition truthy (v : Json.t) : bool :=
  match v with
  | JNull => false
  | JBool b => b
  | JNum q => negb (Qeq_bool q 0)
  | JStr s => negb (String.eqb s EmptyString)
  | JArr _ | JObj _ => true
  end.

(** [parseAnalysisResponse]; its argument is the outcome of [JSON.parse]
    ([None]: a syntax error, caught). [parsed.hasOwnProperty(field)] throws
    (and is caught) on [null] and on an object whose own [hasOwnProperty]
    key shadows the method; on other primitives and arrays it is false. *)
Definition parseAnalysisResponse (parsed : option Json.t) : option (list (string * Json.t)) :=
  match parsed with
  | Some (JObj f) =>
      if has "hasOwnProperty" f then None
      else if has "overallScore" f && has "strengths" f && has "areasForImprovement" f
      then Some f else None
  | _ => None
  end.

(** Outcome of [openai.chat.completions.create]. *)
Inductive ProviderOutcome :=
| ProvRejects (err : string)               (* unreachable, timeout, refused key *)
| ProvNoContent                            (* [choices[0]?.message?.content] is empty *)
| ProvContent (parsed : option Json.t).    (* the content, through [JSON.parse] *)

(** *** Store tables touched by the route *)

(** [sessions] (columns the route reads or writes; [transcript],
    [overall_score] and [session_type] are written too and not modelled). *)
Record SessionRow := {
  s_id : string;
  s_profile_id : option string;
  s_company_id : option string;
  s_status : string;
  s_processing_status : string;
  s_feedback_summary : option string;
  s_analyzed_at : option string
}.

Record AnalysisResultRow := {
  ar_session_id : string;
  ar_analysis_type : string;
  ar_provider : string;
  ar_version : string;
  ar_results : Json.t;
  ar_confidence_score : Q;
  ar_created_at : string
}.

(** [session_analytics]; the score columns are derived from [an_analysis]. *)
Record AnalyticsRow := {
  an_session_id : string;
  an_profile_id : option string;
  an_company_id : option string;
  an_metrics : AnalysisMetrics;
  an_analysis : list (string * Json.t);
  an_created_at : string
}.

Record Store := {
  st_sessions : list SessionRow;
  st_analysis_results : list AnalysisResultRow;
  st_session_analytics : list AnalyticsRow
}.

(** [.upsert(row, { onConflict: key })]: the rows with the key of [row] are
    replaced by [row]; without such a row, [row] is inserted. *)
Definition upsert {A} (key : A -> string) (row : A) (rows : list A) : list A :=
  if existsb (fun r => String.eqb (key r) (key row)) rows
  then map (fun r => if String.eqb (key r) (key row) then row else r) rows
  else rows ++ [row].

(** [.from(SESSIONS).select(...).eq('id', id).single()]: exactly one row. *)
Definition session_single (st : Store) (id : string) : option SessionRow :=
  match filter (fun r => String.eqb (s_id r) id) (st_sessions st) with
  | [r] => Some r
  | _ => None
  end.

Record Env := {
  SERVER_SECRET : option string;
  OPENAI_API_KEY : option string;
  hdr_authorization : option string;
  hdr_x_server_secret : option string;
  getUser : string -> option string;            (* auth user of the header *)
  profile_by_auth_id : string -> option string; (* [profiles.id] by [auth_id] *)
  provider : ProviderOutcome;
  rnd : MockRandom;
  now_ms : N;
  now_iso : string
}.

Inductive TranscriptIn :=
| TUndefined
| TString (s : string)
| TArray (l : list TranscriptMessage)
| TOther (v : Json.t).

Record AnalysisRequest := {
  sessionId : string;
  transcript : TranscriptIn;
  duration : option Q;
  userInfo : option UserInfo
}.

Inductive Body :=
| BError (error : string)
| BAnalysis (analysis : Json.t) (metrics : option AnalysisMetrics) (isDemo : bool)
            (error : option string).

Record Response := { status : N; body : Body }.

Definition json (b : Body) : Response := {| status := 200; body := b |}.
Definition json_err (code : N) (msg : string) : Response :=
  {| status := code; body := BError msg |}.

Inductive AuthResult := AuthOk | AuthReject (r : Response).

(** The authorization block of [POST]. *)
Definition authorize (env : Env) (st : Store) (sessionId : string) : AuthResult :=
  let serverSecret := hdr_x_server_secret env in
  if Js.truthy_str serverSecret &&
     match serverSecret, SERVER_SECRET env with
     | Some a, Some b => String.eqb a b
     | _, _ => false
     end
  then AuthOk
  else if Js.truthy_str (hdr_authorization env) then
    match hdr_authorization env with
    | None => AuthReject (json_err 401 "Authorization required")
    | Some authHeader =>
        match getUser env authHeader with
        | None => AuthReject (json_err 401 "Unauthorized")
        | Some uid =>
            match profile_by_auth_id env uid with
            | None => AuthReject (json_err 404 "Profile not found")
            | Some pid =>
                match session_single st sessionId with
                | Some r =>
                    match s_profile_id r with
                    | Some p => if String.eqb p pid then AuthOk
                                else AuthReject (json_err 404 "Session not found or access denied")
                    | None => AuthReject (json_err 404 "Session not found or access denied")
                    end
                | None => AuthReject (json_err 404 "Session not found or access denied")
                end
            end
        end
    end
  else AuthReject (json_err 401 "Authorization required").

(** [feedback_summary] of the session update: [None] when
    [analysis.detailedAnalysis.substring] throws (a truthy non-string). *)
Definition feedback_summary (analysis : list (string * Json.t)) : option (option string) :=
  match get "detailedAnalysis" analysis with
  | Some (JStr d) =>
      if String.eqb d EmptyString then Some None
      else Some (Some (String.substring 0 500 d ++ "..."))
  | Some v => if truthy v then None else Some None
  | None => Some None
  end.

(** The database block after a parsed analysis. A throw inside its [try]
    is caught and logged: nothing after it is written. *)
Definition persist (env : Env) (st : Store) (sessionId : string)
    (metrics : AnalysisMetrics) (analysis finalAnalysis : list (string * Json.t)) : Store :=
  match feedback_summary analysis with
  | None => st
  | Some fb =>
      let st1 :=
        {| st_sessions :=
             map (fun r => if String.eqb (s_id r) sessionId then
                    {| s_id := s_id r; s_profile_id := s_profile_id r;
                       s_company_id := s_company_id r;
                       s_status := "analyzed"; s_processing_status := "completed";
                       s_feedback_summary := fb; s_analyzed_at := Some (now_iso env) |}
                  else r) (st_sessions st);
           st_analysis_results := st_analysis_results st;
           st_session_analytics := st_session_analytics st |} in
      let sessionData := session_single st1 sessionId in
      let st2 :=
        {| st_sessions := st_sessions st1;
           st_analysis_results :=
             upsert ar_session_id
               {| ar_session_id := sessionId;
                  ar_analysis_type := "gpt-4-sales-coaching";
                  ar_provider := "openai"; ar_version := "1.0";
                  ar_results := JObj finalAnalysis;
                  ar_confidence_score := 85 # 100;
                  ar_created_at := now_iso env |} (st_analysis_results st1);
           st_session_analytics := st_session_analytics st1 |} in
      {| st_sessions := st_sessions st2;
         st_analysis_results := st_analysis_results st2;
         st_session_analytics :=
           upsert an_session_id
             {| an_session_id := sessionId;
                an_profile_id := match sessionData with Some r => s_profile_id r | None => None end;
                an_company_id := match sessionData with Some r => s_company_id r | None => None end;
                an_metrics := metrics; an_analysis := analysis;
                an_created_at := now_iso env |} (st_session_analytics st2) |}
  end.

(** The outermost [catch]: mock transcript, mock metrics, mock analysis. *)
Definition catastrophic (env : Env) (err : string) : Response :=
  json (BAnalysis (generateMockAnalysis None (rnd env) (now_ms env) (now_iso env))
                  (Some (generateAnalysisMetrics createMockTranscript 300))
                  true (Some err)).

(** Transcript normalisation of [POST]: the array and its plain text. *)
Definition normalize_transcript (t : TranscriptIn) : list TranscriptMessage * string :=
  match t with
  | TString s => ([msg "user" s], s)
  | TArray l => (l, extractTranscriptText l)
  | _ => ([], EmptyString)
  end.

(** [POST /api/session/analyze]; [None] for a body that [request.json()]
    cannot parse. *)
Definition POST (body : option AnalysisRequest) (env : Env) (st : Store) : Response * Store :=
  match body with
  | None => (catastrophic env "Unexpected end of JSON input", st)
  | Some req =>
    let mock := generateMockAnalysis (userInfo req) (rnd env) (now_ms env) (now_iso env) in
    let sid := sessionId req in
    if Js.startsWith sid "demo-" then
      let transcriptArray :=
        match transcript req with TArray l => l | _ => createMockTranscript end in
      let metrics := generateAnalysisMetrics transcriptArray (Js.or_num (duration req) 300) in
      (json (BAnalysis mock (Some metrics) true None), st)
    else
    match authorize env st sid with
    | AuthReject r => (r, st)
    | AuthOk =>
      if negb (Js.truthy_str (OPENAI_API_KEY env)) then
        (json (BAnalysis mock None true None), st)
      else
      let (transcriptArray, transcriptText) := normalize_transcript (transcript req) in
      if String.eqb transcriptText EmptyString || (String.length transcriptText <? 20)%nat then
        let mockArray := createMockTranscript in
        let metrics := generateAnalysisMetrics mockArray (Js.or_num (duration req) 300) in
        (json (BAnalysis mock (Some metrics) true None), st)
      else
      let metrics := generateAnalysisMetrics transcriptArray (Js.or_num (duration req) 0) in
      match provider env with
      | ProvRejects err => (catastrophic env err, st)
      | ProvNoContent => (catastrophic env "No analysis generated by OpenAI", st)
      | ProvContent parsed =>
          match parseAnalysisResponse parsed with
          | None =>
              let fallbackMetrics :=
                generateAnalysisMetrics transcriptArray (Js.or_num (duration req) 300) in
              (json (BAnalysis mock (Some fallbackMetrics) true
                               (Some "Failed to parse AI analysis")), st)
          | Some analysis =>
              let finalAnalysis :=
                set "date" (JStr (now_iso env))
                  (set "duration"
                     (JNum (inject_Z (Qfloor (Js.or_num (duration req) 0 / 60))))
                     (set "id" (JStr sid) analysis)) in
              let st' := if negb (Js.startsWith sid "demo-")
                         then persist env st sid metrics analysis finalAnalysis
                         else st in
              (json (BAnalysis (JObj finalAnalysis) (Some metrics) false None), st')
          end
      end
    end
  end.

End Analyze.

(** ** End-session route (src/unnamed/part_001) *)
Module EndSession.
Import Json.

Record EndRequest := {
  session_id : option Json.t;
  duration_seconds : option Json.t;
  transcript : option Json.t;
  audio_quality : option Json.t
}.

Record Validated := {
  v_session_id : string;
  v_duration_seconds : Q;
  v_transcript : option (list Json.t)   (* [Some l]: an array; [None]: absent or falsy *)
}.

(** [validateEndSession]; [None] where it throws. *)
Definition validateEndSession (data : EndRequest) : option Validated :=
  match session_id data with
  | Some (JStr sid) =>
      if String.eqb sid EmptyString then None else
      match duration_seconds data with
      | Some (JNum d) =>
          if Qeq_bool d 0 || Qle_bool d 0 then None else
          match transcript data with
          | Some (JArr l) => Some {| v_session_id := sid; v_duration_seconds := d;
                                     v_transcript := Some l |}
          | Some v => if Analyze.truthy v then None
                      else Some {| v_session_id := sid; v_duration_seconds := d;
                                   v_transcript := None |}
          | None => Some {| v_session_id := sid; v_duration_seconds := d;
                            v_transcript := None |}
          end
      | _ => None
      end
  | _ => None
  end.

(** How the [fetch] of the analyze route ends. *)
Inductive TriggerOutcome :=
| TriggerOk                   (* resolves with [ok] *)
| TriggerNotOk (code : N)     (* resolves with an error status *)
| TriggerThrows.              (* rejects *)

Record Profile := { p_id : string; p_company_id : option string }.

Record EndEnv := {
  e_authorization : option string;
  e_getUser : string -> option string;            (* [supabase.auth.getUser(token)] *)
  e_profile_by_auth_id : string -> option Profile;
  e_session_status : string -> string -> option string; (* by id and profile id *)
  e_update_ok : bool;                             (* the session update succeeds *)
  e_now_iso : string;
  e_score_draw : Analyze.Draw
}.

Inductive EndBody :=
| EBError (error : string)
| EBDemo (id : string) (status : string) (ended_at : string) (duration_seconds : Q)
         (minute_cost : Q) (minutes_used : Z) (score : Q) (analysisTriggered : bool)
| EBSession (id : string) (status : string) (ended_at : string) (duration_seconds : Q)
            (minute_cost : Q) (minutes_used : Z) (transcript_stored : bool)
            (analysis_triggered : bool) (processing_status : string).

Record EndResponse := { e_status : N; e_body : EndBody }.

(** The audit record inserted before the response ([details]). *)
Record AuditEntry := {
  au_session_id : string;
  au_minutes_used : Z;
  au_transcript_provided : bool;
  au_analysis_triggered : bool
}.

Definition nonempty {A} (l : option (list A)) : bool :=
  match l with Some (_ :: _) => true | _ => false end.

(** [POST /api/session/end]; [ao] is how the analysis trigger ends (it is
    only awaited when a non-empty transcript is supplied). *)
Definition POST (body : option EndRequest) (env : EndEnv) (ao : TriggerOutcome)
  : EndResponse * list AuditEntry :=
  let internal := ({| e_status := 500; e_body := EBError "Internal server error" |}, []) in
  match body with
  | None => internal
  | Some data =>
  match validateEndSession data with
  | None => internal
  | Some v =>
    let sid := v_session_id v in
    let d := v_duration_seconds v in
    let minutesUsed := Qceiling (d / 60) in
    if Js.startsWith sid "demo-" then
      let mockScore :=
        (inject_Z (Js.round ((Analyze.draw_val (e_score_draw env) * 2 + (35 # 10)) * 10)) / 10)%Q in
      (* the trigger's outcome is only logged *)
      ({| e_status := 200;
          e_body := EBDemo sid "completed" (e_now_iso env) d 0 minutesUsed mockScore
                           (nonempty (v_transcript v)) |}, [])
    else
    match e_authorization env with
    | None => ({| e_status := 401; e_body := EBError "Authorization header required" |}, [])
    | Some authHeader =>
    (* [!authHeader]: the empty header is falsy too *)
    if String.eqb authHeader EmptyString then
      ({| e_status := 401; e_body := EBError "Authorization header required" |}, [])
    else
    match e_getUser env authHeader with
    | None => ({| e_status := 401; e_body := EBError "Invalid authorization token" |}, [])
    | Some uid =>
    match e_profile_by_auth_id env uid with
    | None => ({| e_status := 404; e_body := EBError "User profile not found" |}, [])
    | Some profile =>
    match e_session_status env sid (p_id profile) with
    | None => ({| e_status := 404; e_body := EBError "Session not found or access denied" |}, [])
    | Some st =>
    if negb (String.eqb st "active") then
      ({| e_status := 400; e_body := EBError "Session is not active" |}, [])
    else
    let minuteCost := (inject_Z minutesUsed * (1 # 10))%Q in
    let processing_status :=
      match v_transcript v with Some _ => "analyzing" | None => "completed" end in
    if negb (e_update_ok env) then
      ({| e_status := 500; e_body := EBError "Failed to update session" |}, [])
    else
    let analysisTriggered :=
      if nonempty (v_transcript v) then
        match ao with TriggerOk => true | TriggerNotOk _ => false | TriggerThrows => false end
      else false in
    let audit := {| au_session_id := sid; au_minutes_used := minutesUsed;
                    au_transcript_provided := nonempty (v_transcript v);
                    au_analysis_triggered := analysisTriggered |} in
    ({| e_status := 200;
        e_body := EBSession sid "completed" (e_now_iso env) d minuteCost minutesUsed
                            (nonempty (v_transcript v)) analysisTriggered processing_status |},
     [audit])
    end end end end
  end
  end.

End EndSession.

(** ** Observations on responses and the store *)
Module Observe.
Import Metrics Json Analyze.

Definition resp_metrics (r : Response) : option AnalysisMetrics :=
  match body r with BAnalysis _ m _ _ => m | BError _ => None end.

Definition resp_isDemo (r : Response) : bool :=
  match body r with BAnalysis _ _ d _ => d | BError _ => false end.

(** The [analysis_results] rows of a session. *)
Definition rows_for (sid : string) (st : Store) : list AnalysisResultRow :=
  filter (fun r => String.eqb (ar_session_id r) sid) (st_analysis_results st).

(** The transcript text is long enough for the provider (20 characters). *)
Definition meaningful (t : TranscriptIn) : bool :=
  let text := snd (normalize_transcript t) in
  negb (String.eqb text EmptyString) && negb (String.length text <? 20)%nat.

(** A whole analysis: every mandatory and optional field is present and
    populated (lists non-empty, texts non-empty, sub-scores complete). *)
Definition is_number (v : Json.t) : bool := match v with JNum _ => true | _ => false end.
Definition is_text (v : Json.t) : bool :=
  match v with JStr s => negb (String.eqb s EmptyString) | _ => false end.
Definition is_list (v : Json.t) : bool :=
  match v with JArr (_ :: _) => true | _ => false end.
Definition is_subscore (v : Json.t) : bool :=
  match v with
  | JObj f =>
      match get "score" f, get "analysis" f with
      | Some s, Some a => is_number s && is_text a
      | _, _ => false
      end
  | _ => false
  end.
Definition field_ok (p : Json.t -> bool) (k : string) (f : list (string * Json.t)) : bool :=
  match get k f with Some v => p v | None => false end.

Definition whole_analysis (a : Json.t) : bool :=
  match a with
  | JObj f =>
      field_ok is_number "overallScore" f && field_ok is_list "strengths" f &&
      field_ok is_list "areasForImprovement" f && field_ok is_list "effectiveTechniques" f &&
      field_ok is_list "techniquesNeedingWork" f &&
      field_ok is_subscore "objectionHandling" f &&
      field_ok is_subscore "closingEffectiveness" f &&
      field_ok is_list "keyRecommendations" f && field_ok is_text "detailedAnalysis" f
  | _ => false
  end.

(** A degraded answer: the store is untouched and the caller gets a success
    status with an [isDemo] body carrying a whole analysis. *)
Definition degraded_ok (r : Response * Store) (st : Store) : Prop :=
  snd r = st /\ status (fst r) = 200%N /\
  exists a m e, body (fst r) = BAnalysis a m true e /\ whole_analysis a = true.


End Observe.

(** ** Sample inputs *)
Module Samples.
Import Metrics Json Analyze.

Definition draw0 : Draw := {| d_num := 0; d_rest := 0 |}.
Definition rnd0 : MockRandom :=
  {| r_score0 := draw0; r_score1 := draw0; r_scenario := draw0; r_duration := draw0 |}.

(** An internal (server-secret) caller with the given API key and provider outcome. *)
Definition env_internal (key : option string) (p : ProviderOutcome) : Env :=
  {| SERVER_SECRET := Some "s3cret"; OPENAI_API_KEY := key;
     hdr_authorization := None; hdr_x_server_secret := Some "s3cret";
     getUser := fun _ => None; profile_by_auth_id := fun _ => None;
     provider := p; rnd := rnd0; now_ms := 1700000000000%N;
     now_iso := "2026-10-17T00:00:00.000Z" |}.

(** A caller with no credential at all. *)
Definition env_anonymous : Env :=
  {| SERVER_SECRET := Some "s3cret"; OPENAI_API_KEY := Some "sk-test";
     hdr_authorization := None; hdr_x_server_secret := None;
     getUser := fun _ => None; profile_by_auth_id := fun _ => None;
     provider := ProvNoContent; rnd := rnd0; now_ms := 1700000000000%N;
     now_iso := "2026-10-17T00:00:00.000Z" |}.

Definition store0 : Store :=
  {| st_sessions :=
       [ {| s_id := "f47ac10b-58cc"; s_profile_id := Some "p1"; s_company_id := None;
            s_status := "completed"; s_processing_status := "analyzing";
            s_feedback_summary := None; s_analyzed_at := None |} ];
     st_analysis_results := []; st_session_analytics := [] |}.

Definition transcript1 : list TranscriptMessage :=
  [ msg "user" "Hello, I would like to show you our product today.";
    msg "client" "Sure, go ahead." ].

Definition reply_ok (score : Q) : ProviderOutcome :=
  ProvContent (Some (JObj [ ("overallScore", JNum score); ("title", JStr "Discovery");
                            ("strengths", strs ["Clear opening"]);
                            ("areasForImprovement", strs ["Ask more questions"]);
                            ("detailedAnalysis", JStr "Solid call.") ])).


Definition req (sid : string) (t : TranscriptIn) (d : option Q) : AnalysisRequest :=
  {| sessionId := sid; transcript := t; duration := d; userInfo := None |}.

End Samples.

(** ** Date fields of a session record (src/unnamed/part_000) *)
Module SessionDates.
Import Json Analyze.

(** [a || b] where both sides are property reads ([None]: [undefined]). *)
Definition or_opt (a b : option Json.t) : option Json.t :=
  match a with Some v => if truthy v then Some v else b | None => b end.

(** [a || c] where [c] is a value. *)
Definition or_val (a : option Json.t) (c : Json.t) : Json.t :=
  match a with Some v => if truthy v then v else c | None => c end.

Record Dates := {
  createdAt : Json.t;
  endedAt : Json.t;
  analyzedAt : Json.t;
  updatedAt : Json.t;
  startedAt : Json.t
}.

(** [normalizeDates(data)]; [now_iso] is [new Date().toISOString()]. *)
Definition normalizeDates (data : list (string * Json.t)) (now_iso : string) : Dates :=
  {| createdAt := or_val (or_opt (get "createdAt" data) (get "created_at" data)) (JStr now_iso);
     endedAt := or_val (or_opt (get "endedAt" data) (get "ended_at" data)) JNull;
     analyzedAt := or_val (or_opt (get "analyzedAt" data) (get "analyzed_at" data)) JNull;
     updatedAt := or_val (or_opt (get "updatedAt" data) (get "updated_at" data)) JNull;
     startedAt := or_val (or_opt (get "startedAt" data) (get "started_at" data)) JNull |}.

(** The object [normalizeDates] returns. *)
Definition dates_obj (d : Dates) : list (string * Json.t) :=
  [ ("createdAt", createdAt d); ("endedAt", endedAt d); ("analyzedAt", analyzedAt d);
    ("updatedAt", updatedAt d); ("startedAt", startedAt d) ].

End SessionDates.

(** ** Session read route [GET /api/session/[id]] (src/unnamed/part_002) *)
Module SessionGet.
Import Json Analyze.

Record GetEnv := {
  g_authorization : option string;
  g_getUser : string -> option string;            (* [supabase.auth.getUser(token)] *)
  g_profile_by_auth_id : string -> option string  (* [profiles.id] by [auth_id] *)
}.

(** [.single()]: the row when exactly one matches; otherwise an error and
    no data. *)
Definition single {A} (l : list A) : option A :=
  match l with [r] => Some r | _ => None end.

(** [.eq('id', sessionId).eq('profile_id', profile.id)]. *)
Definition session_by_owner (st : Store) (sessionId pid : string) : list SessionRow :=
  filter (fun r => String.eqb (s_id r) sessionId &&
                   match s_profile_id r with Some p => String.eqb p pid | None => false end)
         (st_sessions st).

Inductive GetBody :=
| GDemo                                   (* [{ session: null, isDemo: true, ... }] *)
| GError (error : string)
| GSession (session : SessionRow) (detailedAnalysis : Json.t)
           (metrics : option AnalyticsRow) (analysis : Json.t).

Record GetResponse := { g_status : N; g_body : GetBody }.

Definition GET (sessionId : string) (env : GetEnv) (st : Store) : GetResponse :=
  if Js.startsWith sessionId "demo-" then {| g_status := 200; g_body := GDemo |}
  else
  match g_authorization env with
  | Some authHeader =>
    if negb (Js.truthy_str (Some authHeader)) then
      {| g_status := 401; g_body := GError "Authorization required" |}
    else
    match g_getUser env authHeader with
    | None => {| g_status := 401; g_body := GError "Invalid authorization token" |}
    | Some uid =>
    match g_profile_by_auth_id env uid with
    | None => {| g_status := 404; g_body := GError "User profile not found" |}
    | Some pid =>
    match single (session_by_owner st sessionId pid) with
    | None => {| g_status := 404; g_body := GError "Session not found" |}
    | Some session =>
        let analysisResult :=
          single (filter (fun r => String.eqb (ar_session_id r) sessionId)
                         (st_analysis_results st)) in
        let sessionMetrics :=
          single (filter (fun r => String.eqb (an_session_id r) sessionId)
                         (st_session_analytics st)) in
        let results :=
          match analysisResult with
          | Some r => if truthy (ar_results r) then ar_results r else JNull
          | None => JNull
          end in
        {| g_status := 200; g_body := GSession session results sessionMetrics results |}
    end end end
  | None => {| g_status := 401; g_body := GError "Authorization required" |}
  end.

End SessionGet.

(** ** Results page (src/frontend/app/session/[id]/results/page.tsx) *)
Module ResultsPage.
Import SessionUtils Json Analyze.

(** The page maps a database session's status with
    [normalizeSessionStatus(dbSession.status, !!dbSession.detailedAnalysis)]
    and loads it again after 3 s when the mapped status is ['active'] or
    ['processing']. *)
Definition retries (dbStatus : string) (detailedAnalysis : Json.t) : bool :=
  match normalizeSessionStatus dbStatus (Some (truthy detailedAnalysis)) with
  | active | processing => true
  | _ => false
  end.

End ResultsPage.

(** * Properties *)

Import SessionUtils.

(** ** String lemmas *)

Lemma prefix_app_iff (p s : string) :
  String.prefix p s = true <-> exists suf, s = p ++ suf.
Proof.
  revert s; induction p as [|a p IH]; intros s; simpl.
  - split; [intros _; exists s; reflexivity | destruct s; reflexivity].
  - destruct s as [|b s]; simpl.
    + split; [discriminate | intros [suf H]; discriminate].
    + destruct (ascii_dec a b) as [<-|Hne].
      * rewrite IH. split; intros [suf H]; exists suf; [now rewrite H | now injection H].
      * split; [discriminate | intros [suf H]; injection H; intros; congruence].
Qed.

Lemma prefix_app (p suf : string) : String.prefix p (p ++ suf) = true.
Proof. apply prefix_app_iff; eauto. Qed.

Lemma includes_unfold (x pat : string) :
  Js.includes x pat = String.prefix pat x ||
    match x with EmptyString => false | String _ x' => Js.includes x' pat end.
Proof. destruct x; reflexivity. Qed.

Lemma includes_app (pre pat suf : string) : Js.includes (pre ++ pat ++ suf) pat = true.
Proof.
  induction pre as [|c pre IH]; simpl.
  - rewrite includes_unfold, prefix_app. reflexivity.
  - rewrite IH, orb_true_r. reflexivity.
Qed.

Lemma includes_iff (s pat : string) :
  Js.includes s pat = true <-> exists pre suf, s = pre ++ pat ++ suf.
Proof.
  split.
  - induction s as [|c s IH]; intros H; rewrite includes_unfold in H.
    + rewrite orb_false_r in H. apply prefix_app_iff in H as [suf Hs].
      exists EmptyString, suf. exact Hs.
    + apply orb_true_iff in H as [H|H].
      * apply prefix_app_iff in H as [suf Hs]. exists EmptyString, suf. exact Hs.
      * destruct (IH H) as [pre [suf ->]]. exists (String c pre), suf. reflexivity.
  - intros [pre [suf ->]]. apply includes_app.
Qed.

(** ** C3: the status mapping table *)

(** C3. [normalizeSessionStatus] follows the canonical table: ['analyzed']
    maps to [completed] whatever [hasAnalysis] is; ['completed'] maps to
    [completed] with an analysis and to [processing] without; every raw
    status outside the enumerated set (e.g. ['unknown-garbage']) maps to
    [in_progress]. The function is total, so no status is an error. *)
Theorem normalizeSessionStatus_table :
  (forall b, normalizeSessionStatus "analyzed" b = completed) /\
  normalizeSessionStatus "completed" (Some true) = completed /\
  normalizeSessionStatus "completed" (Some false) = processing /\
  normalizeSessionStatus "unknown-garbage" (Some false) = in_progress /\
  (forall raw b,
     ~ In raw ["analyzed"; "completed"; "active"; "processing"; "demo"; "archived"] ->
     normalizeSessionStatus raw b = in_progress).
Proof.
  split; [reflexivity|]. split; [reflexivity|]. split; [reflexivity|].
  split; [reflexivity|].
  intros raw b Hnot. unfold normalizeSessionStatus.
  repeat match goal with
  | |- context [String.eqb raw ?k] =>
      destruct (String.eqb_spec raw k) as [->|_];
      [exfalso; apply Hnot; simpl; tauto|]
  end.
  reflexivity.
Qed.

Lemma normalizeSessionStatus_table_witness :
  ~ In "unknown-garbage" ["analyzed"; "completed"; "active"; "processing"; "demo"; "archived"] /\
  normalizeSessionStatus "unknown-garbage" None = in_progress.
Proof.
  assert (H : ~ In "unknown-garbage"
                ["analyzed"; "completed"; "active"; "processing"; "demo"; "archived"]).
  { simpl. intuition discriminate. }
  split; [exact H|].
  exact (proj2 (proj2 (proj2 (proj2 normalizeSessionStatus_table))) "unknown-garbage" None H).
Defined.

(** ** C4: the score round trip *)

(** [all_from lo n f]: [f] holds at [lo], [lo + 1], ..., [lo + n - 1]. *)
Fixpoint all_from (lo : Z) (n : nat) (f : Z -> bool) : bool :=
  match n with
  | O => true
  | S m => f lo && all_from (Z.succ lo) m f
  end.

Lemma all_from_sound (n : nat) : forall (lo : Z) (f : Z -> bool),
  all_from lo n f = true -> forall k, (lo <= k < lo + Z.of_nat n)%Z -> f k = true.
Proof.
  induction n as [|n IH]; intros lo f H k Hk; [lia|].
  cbn [all_from] in H. apply andb_prop in H as [H0 H1].
  destruct (Z.eq_dec k lo) as [->|Hne]; [exact H0|].
  apply (IH (Z.succ lo) f H1). lia.
Qed.

Lemma F64_eqb_eq (a b : F64.t) : F64.eqb a b = true -> a = b.
Proof.
  destruct a, b; cbn; intros H; try discriminate;
    repeat match goal with
           | H : _ && _ = true |- _ => apply andb_prop in H as [? ?]
           | H : Bool.eqb _ _ = true |- _ => apply Bool.eqb_prop in H
           | H : Pos.eqb _ _ = true |- _ => apply Pos.eqb_eq in H
           | H : Z.eqb _ _ = true |- _ => apply Z.eqb_eq in H
           end; subst; reflexivity.
Qed.

(** The round trip 10 -> 100 -> 10 of [normalizeScore]. *)
Definition score_roundtrip (s : option F64.t) : F64.t :=
  normalizeScore (Some (normalizeScore s S10 S100)) S100 S10.

(** C4 (counterexample). The round trip is computed in binary64 and does not
    return every score: 0.11 comes back as 0.11000000000000001, the next
    double above it (and JavaScript's [===] tells them apart), 1e308 comes back as Infinity, and the absent
    score comes back as the number 0, not [undefined]. *)
Lemma normalizeScore_roundtrip_counterexample :
  score_roundtrip (Some (F64.lit 11 100)) <> F64.lit 11 100 /\
  score_roundtrip (Some (F64.lit 11 100)) = SFsucc 53 1024 (F64.lit 11 100) /\
  SFeqb (score_roundtrip (Some (F64.lit 11 100))) (F64.lit 11 100) = false /\
  score_roundtrip (Some (F64.of_Z (10 ^ 308))) = S754_infinity false /\
  score_roundtrip None = F64.zero.
Proof.
  split; [vm_compute; discriminate|].
  split; [vm_compute; reflexivity|].
  split; [vm_compute; reflexivity|].
  split; vm_compute; reflexivity.
Qed.

(** C4 (amended). For every score written with at most one decimal place
    between -100 and 100 (the double [k / 10] for an integer [k] with
    [-1000 <= k <= 1000], among them 0 and every integer score of both
    scales), the binary64 round trip 10 -> 100 -> 10 returns exactly the same
    double; so do +0 and -0. The absent score and NaN come back as 0. *)
Theorem normalizeScore_roundtrip :
  (forall k : Z, (-1000 <= k <= 1000)%Z ->
     score_roundtrip (Some (F64.lit k 10)) = F64.lit k 10) /\
  (forall b : bool, score_roundtrip (Some (S754_zero b)) = S754_zero b) /\
  score_roundtrip None = F64.zero /\
  score_roundtrip (Some S754_nan) = F64.zero.
Proof.
  split; [|split; [intros []; reflexivity|split; reflexivity]].
  intros k Hk. apply F64_eqb_eq.
  assert (Hall : all_from (-1000) 2001
                   (fun k => F64.eqb (score_roundtrip (Some (F64.lit k 10))) (F64.lit k 10))
                 = true) by (vm_compute; reflexivity).
  apply (all_from_sound 2001 (-1000) _ Hall). lia.
Qed.

Lemma normalizeScore_roundtrip_witness :
  (-1000 <= 72 <= 1000)%Z /\
  score_roundtrip (Some (F64.lit 72 10)) = F64.lit 72 10.
Proof.
  split; [lia|].
  apply (proj1 normalizeScore_roundtrip 72%Z). lia.
Defined.

(** ** C5: identity classification *)

(** C5. [isDemoSession] classifies an identifier as a demo (Local) session
    exactly when it starts with "demo-" or "temp-", or contains "demo"
    anywhere, or the status is "demo"; in particular "user-demo-2" is
    Local (substring rule) while "f47ac10b-58cc" with another status is not. *)
Theorem isDemoSession_iff :
  (forall (id : string) (status : option string),
     isDemoSession (Some id) status = true <->
     (exists suf, id = "demo-" ++ suf) \/ (exists suf, id = "temp-" ++ suf) \/
     (exists pre suf, id = pre ++ "demo" ++ suf) \/ status = Some "demo") /\
  isDemoSession (Some "user-demo-2") None = true /\
  isDemoSession (Some "f47ac10b-58cc") (Some "active") = false.
Proof.
  split; [|split; reflexivity].
  intros id status. unfold isDemoSession, Js.startsWith.
  rewrite <- !prefix_app_iff, <- includes_iff.
  destruct status as [st|].
  - destruct (String.eqb_spec st "demo") as [->|Hne].
    + split; [intros _; tauto | reflexivity].
    + destruct (String.prefix "demo-" id), (String.prefix "temp-" id), (Js.includes id "demo");
        split; intros H; try reflexivity; try tauto;
        repeat destruct H as [H|H]; try discriminate; injection H; congruence.
  - destruct (String.prefix "demo-" id), (String.prefix "temp-" id), (Js.includes id "demo");
      split; intros H; try reflexivity; try tauto;
      repeat destruct H as [H|H]; discriminate.
Qed.

(** ** Regular-expression scan and concatenation *)
Section Scan.
Local Open Scope nat_scope.
Import Metrics.

Lemma str_app_assoc (a b c : string) : (a ++ b) ++ c = a ++ (b ++ c).
Proof. induction a as [|x a IH]; simpl; [reflexivity | now rewrite IH]. Qed.

Lemma str_app_nil_r (a : string) : a ++ EmptyString = a.
Proof. induction a as [|x a IH]; simpl; [reflexivity | now rewrite IH]. Qed.

Lemma str_length_app (a b : string) : String.length (a ++ b) = String.length a + String.length b.
Proof. induction a as [|x a IH]; simpl; [reflexivity | now rewrite IH]. Qed.

(** The text after a position starts with no word character. *)
Definition nonword_head (t : string) : bool :=
  match t with EmptyString => true | String c _ => negb (Js.is_word c) end.

Lemma word_at_get_app (n : nat) (s t : string) :
  n <= String.length s -> nonword_head t = true ->
  word_at (String.get n (s ++ t)) = word_at (String.get n s).
Proof.
  revert n; induction s as [|c s IH]; intros n Hn Ht; simpl in *.
  - assert (n = 0) as -> by lia. destruct t as [|d t]; simpl in *; [reflexivity|].
    now apply negb_true_iff in Ht.
  - destruct n as [|n]; [reflexivity|]. apply IH; [lia | exact Ht].
Qed.

Lemma prefix_ci_length (pat s : string) :
  prefix_ci pat s = true -> String.length pat <= String.length s.
Proof.
  revert s; induction pat as [|p pat IH]; intros s H; simpl; [lia|].
  destruct s as [|c s]; simpl in H; [discriminate|].
  apply andb_true_iff in H as [_ H]. simpl. apply IH in H. lia.
Qed.

Lemma prefix_ci_app (pat s t : string) :
  String.length pat <= String.length s -> prefix_ci pat (s ++ t) = prefix_ci pat s.
Proof.
  revert s; induction pat as [|p pat IH]; intros s Hl; [reflexivity|].
  destruct s as [|c s]; simpl in *; [lia|].
  rewrite IH; [reflexivity | lia].
Qed.

Lemma match_at_short (pat : string) (prev : option ascii) (s : string) :
  String.length s < String.length pat -> match_at pat prev s = false.
Proof.
  intros Hl. unfold match_at.
  destruct (prefix_ci pat s) eqn:E.
  - apply prefix_ci_length in E. lia.
  - now rewrite andb_false_r, andb_false_l.
Qed.

Lemma match_at_app (pat : string) (prev : option ascii) (s t : string) :
  String.length pat <= String.length s -> nonword_head t = true ->
  match_at pat prev (s ++ t) = match_at pat prev s.
Proof.
  intros Hl Ht. unfold match_at, boundary.
  rewrite prefix_ci_app by exact Hl.
  rewrite (word_at_get_app 0) by (lia || exact Ht).
  rewrite (word_at_get_app (String.length pat)) by (lia || exact Ht).
  destruct (String.length pat) as [|k] eqn:E; [reflexivity|].
  rewrite (word_at_get_app k) by (lia || exact Ht). reflexivity.
Qed.

Lemma scan_short (pat : string) (s : string) :
  String.length s < String.length pat -> forall k prev, scan pat k prev s = 0.
Proof.
  induction s as [|c s IH]; intros Hl k prev; [reflexivity|].
  simpl in Hl. destruct k as [|k]; simpl.
  - rewrite match_at_short by (simpl; lia). apply IH. lia.
  - apply IH. lia.
Qed.

(** Appending text that starts with a non-word character never removes a
    match: the matches inside [s] keep their boundaries, and a match that
    crosses the junction leaves no room for a later match inside [s]. *)
Lemma scan_app (pat t : string) :
  nonword_head t = true ->
  forall s k prev, scan pat k prev s <= scan pat k prev (s ++ t).
Proof.
  intros Ht s; induction s as [|c s IH]; intros k prev; [simpl; lia|].
  change (String c s ++ t) with (String c (s ++ t)).
  destruct k as [|k]; simpl.
  - destruct (Nat.le_gt_cases (String.length pat) (String.length (String c s))) as [Hle|Hgt].
    + change (String c (s ++ t)) with (String c s ++ t).
      rewrite match_at_app by assumption.
      destruct (match_at pat prev (String c s)); [apply le_n_S|]; apply IH.
    + rewrite match_at_short by exact Hgt.
      rewrite scan_short by (simpl in Hgt; lia). lia.
  - apply IH.
Qed.

Lemma count_matches_app (pat s t : string) :
  nonword_head t = true -> count_matches pat s <= count_matches pat (s ++ t).
Proof. intros Ht. apply scan_app, Ht. Qed.

Lemma count_matches_empty (pat : string) : count_matches pat EmptyString = 0.
Proof. reflexivity. Qed.

Lemma fold_sum_mono (l : list string) (g1 g2 : string -> nat) :
  (forall f, g1 f <= g2 f) ->
  forall a1 a2, a1 <= a2 ->
  fold_left (fun c f => c + g1 f) l a1 <= fold_left (fun c f => c + g2 f) l a2.
Proof.
  intros Hg; induction l as [|f l IH]; intros a1 a2 Ha; simpl; [exact Ha|].
  apply IH. specialize (Hg f). lia.
Qed.

Lemma fold_sum_zero (l : list string) (a : nat) :
  fold_left (fun c f => c + count_matches f EmptyString) l a = a.
Proof.
  revert a; induction l as [|f l IH]; intros a; cbn [fold_left]; [reflexivity|].
  rewrite IH. apply Nat.add_0_r.
Qed.

(** ** Transcript text of a concatenation *)

Definition ws_head (t : string) : bool :=
  match t with EmptyString => true | String c _ => Js.is_ws c end.

Lemma ws_lower_nonword (c : ascii) :
  Js.is_ws c = true -> Js.lower_char c = c /\ Js.is_word c = false.
Proof.
  intros H.
  destruct c as [[] [] [] [] [] [] [] []]; vm_compute in H; try discriminate H;
    split; reflexivity.
Qed.

Lemma toLowerCase_app (a b : string) :
  Js.toLowerCase (a ++ b) = Js.toLowerCase a ++ Js.toLowerCase b.
Proof. induction a as [|c a IH]; simpl; [reflexivity | now rewrite IH]. Qed.

Lemma ws_head_lower (t : string) :
  ws_head t = true -> nonword_head (Js.toLowerCase t) = true.
Proof.
  destruct t as [|c t]; simpl; [reflexivity|].
  intros H. destruct (ws_lower_nonword c H) as [-> ->]. reflexivity.
Qed.

Lemma trimStart_app (x r : string) :
  Js.trimStart (x ++ r) =
  if String.eqb (Js.trimStart x) EmptyString then Js.trimStart r else Js.trimStart x ++ r.
Proof.
  induction x as [|c x IH]; simpl; [reflexivity|].
  destruct (Js.is_ws c); [exact IH | reflexivity].
Qed.

Lemma app_eqb_nil (a y : string) :
  String.eqb y EmptyString = false -> String.eqb (a ++ y) EmptyString = false.
Proof. destruct a; simpl; [exact (fun h => h) | reflexivity]. Qed.

Lemma trimEnd_app (a b : string) :
  Js.trimEnd (a ++ b) =
  if String.eqb (Js.trimEnd b) EmptyString then Js.trimEnd a else a ++ Js.trimEnd b.
Proof.
  induction a as [|c a IH]; simpl.
  - destruct (String.eqb_spec (Js.trimEnd b) EmptyString) as [E|_]; [exact E | reflexivity].
  - rewrite IH.
    destruct (String.eqb (Js.trimEnd b) EmptyString) eqn:E; [reflexivity|].
    rewrite (app_eqb_nil a _ E), andb_false_r. reflexivity.
Qed.

Lemma trimEnd_split (a : string) :
  exists w, a = Js.trimEnd a ++ w /\ ws_head w = true.
Proof.
  induction a as [|c a [w [Ha Hw]]]; [exists EmptyString; split; reflexivity|].
  simpl. destruct (Js.is_ws c) eqn:Hc; simpl.
  - destruct (String.eqb_spec (Js.trimEnd a) EmptyString) as [E|_]; simpl.
    + exists (String c a). split; [reflexivity | exact Hc].
    + exists w. split; [now rewrite Ha at 1 | exact Hw].
  - exists w. split; [now rewrite Ha at 1 | exact Hw].
Qed.

Lemma join_app (sep : string) (l1 l2 : list string) :
  l1 <> [] -> l2 <> [] ->
  Js.join sep (l1 ++ l2) = Js.join sep l1 ++ sep ++ Js.join sep l2.
Proof.
  intros H1 H2. induction l1 as [|x l1 IH]; [congruence|].
  destruct l1 as [|y l1].
  - simpl. destruct l2; [congruence | reflexivity].
  - assert (C : forall a b l, Js.join sep (a :: b :: l) = a ++ sep ++ Js.join sep (b :: l))
      by reflexivity.
    rewrite <- app_comm_cons. change (app (y :: l1) l2) with (y :: app l1 l2).
    rewrite C. change (y :: app l1 l2) with (app (y :: l1) l2).
    rewrite IH by discriminate. rewrite C, !str_app_assoc. reflexivity.
Qed.

(** The text of [T1 ++ T2] extends the text of [T1] by white space and
    more, unless the text of [T1] is empty. *)
Lemma extract_app_cases (T1 T2 : list TranscriptMessage) :
  extractTranscriptText T1 = EmptyString \/
  exists t, ws_head t = true /\
            extractTranscriptText (T1 ++ T2) = extractTranscriptText T1 ++ t.
Proof.
  destruct T1 as [|m1 T1]; [left; reflexivity|].
  destruct T2 as [|m2 T2].
  { right. exists EmptyString. rewrite app_nil_r, str_app_nil_r. split; reflexivity. }
  assert (Ec : forall m T, extractTranscriptText (m :: T) =
                          Js.trim (Js.join " " (map message (m :: T)))) by reflexivity.
  rewrite <- app_comm_cons, !Ec, app_comm_cons, map_app.
  rewrite join_app by (simpl; discriminate).
  set (x := Js.join " " (map message (m1 :: T1))).
  set (y := Js.join " " (map message (m2 :: T2))).
  unfold Js.trim. rewrite trimStart_app.
  destruct (String.eqb_spec (Js.trimStart x) EmptyString) as [E|_].
  { left. rewrite E. reflexivity. }
  right. rewrite trimEnd_app.
  assert (Esp : Js.trimEnd (" " ++ y) =
                if String.eqb (Js.trimEnd y) EmptyString then EmptyString
                else String " " (Js.trimEnd y)) by reflexivity.
  rewrite Esp.
  destruct (String.eqb (Js.trimEnd y) EmptyString); simpl.
  - exists EmptyString. rewrite str_app_nil_r. split; reflexivity.
  - destruct (trimEnd_split (Js.trimStart x)) as [w [Hw Hws]].
    exists (w ++ String " " (Js.trimEnd y)). split.
    + destruct w; [reflexivity | exact Hws].
    + rewrite Hw at 1. apply str_app_assoc.
Qed.

End Scan.

(** ** C8: filler words under concatenation *)

(** C8. [fillerWordsCount] is monotone under transcript concatenation: the
    count of [T1 ++ T2] is at least the count of [T1], whatever the
    durations passed to [generateAnalysisMetrics]. *)
Theorem fillerWordsCount_monotone :
  forall (T1 T2 : list Metrics.TranscriptMessage) (d1 d2 : Q),
    (Metrics.fillerWordsCount (Metrics.generateAnalysisMetrics T1 d1) <=
     Metrics.fillerWordsCount (Metrics.generateAnalysisMetrics (T1 ++ T2) d2))%nat.
Proof.
  intros T1 T2 d1 d2. simpl. unfold Metrics.countFillerWords.
  destruct (extract_app_cases T1 T2) as [E | [t [Ht E]]].
  - rewrite E. simpl Js.toLowerCase. rewrite fold_sum_zero. lia.
  - rewrite E, toLowerCase_app.
    apply fold_sum_mono; [|lia].
    intros f. apply count_matches_app, ws_head_lower, Ht.
Qed.

(** ** The analyze route *)
Section AnalyzeRoute.
Import Metrics Json Analyze Observe Samples.

Lemma POST_demo_prefix (req : AnalysisRequest) (env : Env) (st : Store) :
  Js.startsWith (sessionId req) "demo-" = true ->
  POST (Some req) env st =
  (json (BAnalysis (generateMockAnalysis (userInfo req) (rnd env) (now_ms env) (now_iso env))
           (Some (generateAnalysisMetrics
                    (match transcript req with TArray l => l | _ => createMockTranscript end)
                    (Js.or_num (duration req) 300)))
           true None), st).
Proof. intros H. unfold POST. cbv zeta. rewrite H. reflexivity. Qed.

Lemma authorize_reject_codes (env : Env) (st : Store) (sid : string) (r : Response) :
  authorize env st sid = AuthReject r ->
  exists m, r = json_err 401 m \/ r = json_err 404 m.
Proof.
  unfold authorize. cbv zeta. intros H.
  repeat match type of H with context [match ?x with _ => _ end] => destruct x end;
    try discriminate; injection H as <-; eauto.
Qed.

(** A request for a non-demo session that fails authorization is answered
    with the rejection and leaves the store alone. *)
Lemma POST_rejected (req : AnalysisRequest) (env : Env) (st : Store) (r : Response) :
  Js.startsWith (sessionId req) "demo-" = false ->
  authorize env st (sessionId req) = AuthReject r ->
  POST (Some req) env st = (r, st).
Proof. intros Hd Ha. unfold POST. cbv zeta. rewrite Hd, Ha. reflexivity. Qed.

(** The route after the demo short-circuit and a successful authorization. *)
Lemma POST_authorized (req : AnalysisRequest) (env : Env) (st : Store) :
  Js.startsWith (sessionId req) "demo-" = false ->
  authorize env st (sessionId req) = AuthOk ->
  POST (Some req) env st =
  let mock := generateMockAnalysis (userInfo req) (rnd env) (now_ms env) (now_iso env) in
  if negb (Js.truthy_str (OPENAI_API_KEY env)) then
    (json (BAnalysis mock None true None), st)
  else
  let (transcriptArray, transcriptText) := normalize_transcript (transcript req) in
  if String.eqb transcriptText EmptyString || (String.length transcriptText <? 20)%nat then
    (json (BAnalysis mock (Some (generateAnalysisMetrics createMockTranscript
                                   (Js.or_num (duration req) 300))) true None), st)
  else
  let metrics := generateAnalysisMetrics transcriptArray (Js.or_num (duration req) 0) in
  match provider env with
  | ProvRejects err => (catastrophic env err, st)
  | ProvNoContent => (catastrophic env "No analysis generated by OpenAI", st)
  | ProvContent parsed =>
      match parseAnalysisResponse parsed with
      | None =>
          (json (BAnalysis mock
                   (Some (generateAnalysisMetrics transcriptArray (Js.or_num (duration req) 300)))
                   true (Some "Failed to parse AI analysis")), st)
      | Some analysis =>
          let finalAnalysis :=
            set "date" (JStr (now_iso env))
              (set "duration" (JNum (inject_Z (Qfloor (Js.or_num (duration req) 0 / 60))))
                 (set "id" (JStr (sessionId req)) analysis)) in
          (json (BAnalysis (JObj finalAnalysis) (Some metrics) false None),
           persist env st (sessionId req) metrics analysis finalAnalysis)
      end
  end.
Proof.
  intros Hd Ha. unfold POST. cbv zeta. rewrite Hd, Ha. simpl negb. reflexivity.
Qed.

(** C6 (counterexample). "user-demo-2" is a Local (demo) identifier for the
    identity resolver, yet the analyze route answers 401 to a request for it
    that carries no credential. *)
Lemma analyze_local_id_unauthorized :
  SessionUtils.isDemoSession (Some "user-demo-2") None = true /\
  fst (POST (Some (req "user-demo-2" (TArray transcript1) None)) env_anonymous store0) =
  json_err 401 "Authorization required".
Proof. split; vm_compute; reflexivity. Qed.

(** C6 (amended). A request whose session ID starts with "demo-" needs no
    credential: whatever the headers, the route skips authentication,
    answers 200 with metrics and a mock analysis ([isDemo]) and writes
    nothing. Any other identifier, including the other Local identifiers
    ("temp-...", or containing "demo"), is answered 401 without a credential. *)
Theorem analyze_demo_prefix_skips_auth :
  (forall (rq : AnalysisRequest) (env : Env) (st : Store),
     Js.startsWith (sessionId rq) "demo-" = true ->
     snd (POST (Some rq) env st) = st /\
     status (fst (POST (Some rq) env st)) = 200%N /\
     resp_isDemo (fst (POST (Some rq) env st)) = true /\
     resp_metrics (fst (POST (Some rq) env st)) <> None) /\
  (forall (rq : AnalysisRequest) (env : Env) (st : Store),
     Js.startsWith (sessionId rq) "demo-" = false ->
     hdr_authorization env = None -> hdr_x_server_secret env = None ->
     POST (Some rq) env st = (json_err 401 "Authorization required", st)).
Proof.
  split.
  - intros rq env st H. rewrite (POST_demo_prefix rq env st H).
    simpl. repeat split; discriminate.
  - intros rq env st Hd Ha Hs. unfold POST. cbv zeta. rewrite Hd.
    unfold authorize. rewrite Ha, Hs. reflexivity.
Qed.

Lemma analyze_demo_prefix_skips_auth_witness :
  status (fst (POST (Some (req "demo-1699999999" TUndefined None)) env_anonymous store0))
    = 200%N /\
  POST (Some (req "temp-abc" TUndefined None)) env_anonymous store0 =
  (json_err 401 "Authorization required", store0).
Proof.
  split.
  - apply (proj1 analyze_demo_prefix_skips_auth); reflexivity.
  - apply (proj2 analyze_demo_prefix_skips_auth); reflexivity.
Defined.

Lemma mock_whole (ui : option UserInfo) (r : MockRandom) (ms : N) (iso : string) :
  whole_analysis (generateMockAnalysis ui r ms iso) = true.
Proof.
  unfold generateMockAnalysis. cbv zeta.
  destruct (Z.to_nat (Qfloor (draw_val (r_scenario r) * 2))) as [|[|[|n]]]; reflexivity.
Qed.

Lemma short_text_gate (t : TranscriptIn) :
  (String.length (snd (normalize_transcript t)) < 20)%nat ->
  (String.eqb (snd (normalize_transcript t)) EmptyString ||
   (String.length (snd (normalize_transcript t)) <? 20)%nat) = true.
Proof. intros H. apply Nat.ltb_lt in H. rewrite H. apply orb_true_r. Qed.

(** C7. Every analyze request whose transcript text is shorter than 20
    characters, and that reaches the transcript check (a ["demo-"] session,
    or a caller that passes authorization), is answered 200 with
    [isDemo = true] and a mock analysis in which overallScore, strengths,
    areasForImprovement, effectiveTechniques, techniquesNeedingWork,
    objectionHandling, closingEffectiveness, keyRecommendations and
    detailedAnalysis are all populated. A request stopped earlier, by a
    failed authorization, is answered with its 401 or 404 error whatever the
    transcript, and nothing is written. *)
Theorem analyze_short_transcript_mock :
  forall (rq : AnalysisRequest) (env : Env) (st : Store),
    (String.length (snd (normalize_transcript (transcript rq))) < 20)%nat ->
    ((Js.startsWith (sessionId rq) "demo-" = true \/ authorize env st (sessionId rq) = AuthOk) ->
     status (fst (POST (Some rq) env st)) = 200%N /\
     exists a m e, body (fst (POST (Some rq) env st)) = BAnalysis a m true e /\
                   whole_analysis a = true) /\
    (forall t r, Js.startsWith (sessionId rq) "demo-" = false ->
     authorize env st (sessionId rq) = AuthReject r ->
     fst (POST (Some {| sessionId := sessionId rq; transcript := t; duration := duration rq;
                        userInfo := userInfo rq |}) env st) = r /\
     snd (POST (Some {| sessionId := sessionId rq; transcript := t; duration := duration rq;
                        userInfo := userInfo rq |}) env st) = st /\
     exists msg, r = json_err 401 msg \/ r = json_err 404 msg).
Proof.
  intros rq env st Hlen. split.
  - intros Hpath.
    destruct (Js.startsWith (sessionId rq) "demo-") eqn:Hd.
    + rewrite (POST_demo_prefix rq env st Hd). split; [reflexivity|].
      do 3 eexists. split; [reflexivity | apply mock_whole].
    + destruct Hpath as [Hpath|Ha]; [discriminate|].
      rewrite (POST_authorized rq env st Hd Ha). cbv zeta.
      destruct (negb (Js.truthy_str (OPENAI_API_KEY env))).
      * split; [reflexivity|]. do 3 eexists. split; [reflexivity | apply mock_whole].
      * pose proof (short_text_gate _ Hlen) as Hg.
        destruct (normalize_transcript (transcript rq)) as [arr text]. simpl in Hg.
        rewrite Hg. split; [reflexivity|].
        do 3 eexists. split; [reflexivity | apply mock_whole].
  - intros t r Hd Ha.
    rewrite (POST_rejected {| sessionId := sessionId rq; transcript := t;
                              duration := duration rq; userInfo := userInfo rq |}
                           env st r Hd Ha).
    cbn [fst snd].
    split; [reflexivity|]. split; [reflexivity|].
    exact (authorize_reject_codes _ _ _ _ Ha).
Qed.

Lemma analyze_short_transcript_mock_witness :
  status (fst (POST (Some (req "f47ac10b-58cc" (TString "too short") None))
                    (env_internal (Some "sk-test") ProvNoContent) store0)) = 200%N.
Proof.
  apply (proj1 (proj1 (analyze_short_transcript_mock
                         (req "f47ac10b-58cc" (TString "too short") None)
                         (env_internal (Some "sk-test") ProvNoContent) store0
                         ltac:(vm_compute; lia)) (or_intror eq_refl))).
Defined.

Lemma or_num_default (d : option Q) (x : Q) :
  (d = None \/ exists q, d = Some q /\ (q == 0)%Q) -> Js.or_num d x = x.
Proof.
  intros [-> | [q [-> Hq]]]; [reflexivity|].
  unfold Js.or_num. apply Qeq_bool_iff in Hq. rewrite Hq. reflexivity.
Qed.

Lemma meaningful_gate (t : TranscriptIn) :
  meaningful t = true ->
  (String.eqb (snd (normalize_transcript t)) EmptyString ||
   (String.length (snd (normalize_transcript t)) <? 20)%nat) = false.
Proof.
  unfold meaningful. cbv zeta.
  destruct (String.eqb _ _), (_ <? _)%nat; simpl; congruence.
Qed.

Lemma not_meaningful_gate (t : TranscriptIn) :
  meaningful t = false ->
  (String.eqb (snd (normalize_transcript t)) EmptyString ||
   (String.length (snd (normalize_transcript t)) <? 20)%nat) = true.
Proof.
  unfold meaningful. cbv zeta.
  destruct (String.eqb _ _), (_ <? _)%nat; simpl; congruence.
Qed.

Lemma speakingPace_zero (l : list TranscriptMessage) :
  speakingPaceWpm (generateAnalysisMetrics l 0) = 0%Z.
Proof. reflexivity. Qed.

(** C10. With an absent or zero duration, the demo short-circuit, the
    short-transcript path and the parse-failure path compute their metrics
    with a duration of 300 seconds, while the main success path computes
    them with 0, so that its speaking pace is 0. *)
Theorem analyze_default_duration :
  forall (rq : AnalysisRequest) (env : Env) (st : Store),
    (duration rq = None \/ exists q, duration rq = Some q /\ (q == 0)%Q) ->
    (Js.startsWith (sessionId rq) "demo-" = true ->
     resp_metrics (fst (POST (Some rq) env st)) =
     Some (generateAnalysisMetrics
             (match transcript rq with TArray l => l | _ => createMockTranscript end) 300)) /\
    (Js.startsWith (sessionId rq) "demo-" = false ->
     authorize env st (sessionId rq) = AuthOk ->
     Js.truthy_str (OPENAI_API_KEY env) = true ->
     meaningful (transcript rq) = false ->
     resp_metrics (fst (POST (Some rq) env st)) =
     Some (generateAnalysisMetrics createMockTranscript 300)) /\
    (Js.startsWith (sessionId rq) "demo-" = false ->
     authorize env st (sessionId rq) = AuthOk ->
     Js.truthy_str (OPENAI_API_KEY env) = true ->
     meaningful (transcript rq) = true ->
     forall p, provider env = ProvContent p -> parseAnalysisResponse p = None ->
     resp_metrics (fst (POST (Some rq) env st)) =
     Some (generateAnalysisMetrics (fst (normalize_transcript (transcript rq))) 300)) /\
    (Js.startsWith (sessionId rq) "demo-" = false ->
     authorize env st (sessionId rq) = AuthOk ->
     Js.truthy_str (OPENAI_API_KEY env) = true ->
     meaningful (transcript rq) = true ->
     forall p a, provider env = ProvContent p -> parseAnalysisResponse p = Some a ->
     exists m, resp_metrics (fst (POST (Some rq) env st)) = Some m /\
               speakingPaceWpm m = 0%Z).
Proof.
  intros rq env st Hdur.
  pose proof (or_num_default _ 300 Hdur) as H300.
  pose proof (or_num_default _ 0 Hdur) as H0.
  split; [|split; [|split]].
  - intros Hd. rewrite (POST_demo_prefix rq env st Hd). simpl. rewrite H300. reflexivity.
  - intros Hd Ha Hk Hm. rewrite (POST_authorized rq env st Hd Ha). cbv zeta.
    rewrite Hk. simpl negb. cbv iota.
    pose proof (not_meaningful_gate _ Hm) as Hg.
    destruct (normalize_transcript (transcript rq)) as [arr text]. simpl in Hg.
    rewrite Hg. simpl. rewrite H300. reflexivity.
  - intros Hd Ha Hk Hm p Hp Hparse. rewrite (POST_authorized rq env st Hd Ha). cbv zeta.
    rewrite Hk. simpl negb. cbv iota.
    pose proof (meaningful_gate _ Hm) as Hg.
    destruct (normalize_transcript (transcript rq)) as [arr text]. simpl in Hg |- *.
    rewrite Hg, Hp, Hparse. simpl. rewrite H300. reflexivity.
  - intros Hd Ha Hk Hm p a Hp Hparse. rewrite (POST_authorized rq env st Hd Ha). cbv zeta.
    rewrite Hk. simpl negb. cbv iota.
    pose proof (meaningful_gate _ Hm) as Hg.
    destruct (normalize_transcript (transcript rq)) as [arr text]. simpl in Hg.
    rewrite Hg, Hp, Hparse. simpl. rewrite H0.
    eexists. split; [reflexivity | apply speakingPace_zero].
Qed.

Lemma analyze_default_duration_witness :
  resp_metrics (fst (POST (Some (req "demo-1" (TArray transcript1) None)) env_anonymous store0)) =
  Some (generateAnalysisMetrics transcript1 300) /\
  speakingPaceWpm (generateAnalysisMetrics transcript1 300) = 3%Z.
Proof.
  split.
  - apply (proj1 (analyze_default_duration (req "demo-1" (TArray transcript1) None)
                    env_anonymous store0 (or_introl eq_refl))).
    reflexivity.
  - vm_compute. reflexivity.
Defined.

(** C2 (counterexample). An authorized request with a real transcript gets
    no metrics at all when the provider is not configured, and, when the
    provider call is rejected, metrics computed from the built-in mock
    transcript (7 filler words) instead of the real one (1 filler word). *)
Lemma analyze_provider_failure_loses_real_metrics :
  resp_metrics (fst (POST (Some (req "f47ac10b-58cc" (TArray transcript1) (Some 120)))
                         (env_internal None ProvNoContent) store0)) = None /\
  option_map fillerWordsCount
    (resp_metrics (fst (POST (Some (req "f47ac10b-58cc" (TArray transcript1) (Some 120)))
                             (env_internal (Some "sk-test")
                                (ProvRejects "connect ECONNREFUSED")) store0))) = Some 7%nat /\
  fillerWordsCount (generateAnalysisMetrics transcript1 120) = 1%nat.
Proof. vm_compute. repeat split. Qed.

(** C2 (amended). For an analyze request past the demo short-circuit and
    authorization, a provider that is unconfigured, unreachable, returns no
    content or returns unparseable data never produces an error: the answer
    is a success with [isDemo = true], a whole mock analysis and an untouched
    store. The metrics are absent when the provider is unconfigured, come
    from the built-in mock transcript (300 seconds) when the call fails or
    returns nothing, and from the real transcript (duration or 300) when the
    reply cannot be parsed. *)
Theorem analyze_provider_failure_degrades :
  forall (rq : AnalysisRequest) (env : Env) (st : Store),
    Js.startsWith (sessionId rq) "demo-" = false ->
    authorize env st (sessionId rq) = AuthOk ->
    (Js.truthy_str (OPENAI_API_KEY env) = false ->
     degraded_ok (POST (Some rq) env st) st /\
     resp_metrics (fst (POST (Some rq) env st)) = None) /\
    (Js.truthy_str (OPENAI_API_KEY env) = true ->
     meaningful (transcript rq) = true ->
     (exists err, provider env = ProvRejects err) \/ provider env = ProvNoContent ->
     degraded_ok (POST (Some rq) env st) st /\
     resp_metrics (fst (POST (Some rq) env st)) =
     Some (generateAnalysisMetrics createMockTranscript 300)) /\
    (Js.truthy_str (OPENAI_API_KEY env) = true ->
     meaningful (transcript rq) = true ->
     forall p, provider env = ProvContent p -> parseAnalysisResponse p = None ->
     degraded_ok (POST (Some rq) env st) st /\
     resp_metrics (fst (POST (Some rq) env st)) =
     Some (generateAnalysisMetrics (fst (normalize_transcript (transcript rq)))
                                   (Js.or_num (duration rq) 300))).
Proof.
  intros rq env st Hd Ha. rewrite (POST_authorized rq env st Hd Ha). cbv zeta.
  split; [|split].
  - intros Hk. rewrite Hk. simpl negb. cbv iota.
    split; [|reflexivity].
    split; [reflexivity|]. split; [reflexivity|].
    do 3 eexists. split; [reflexivity | apply mock_whole].
  - intros Hk Hm Hp. rewrite Hk. simpl negb. cbv iota.
    pose proof (meaningful_gate _ Hm) as Hg.
    destruct (normalize_transcript (transcript rq)) as [arr text]. simpl in Hg.
    rewrite Hg.
    destruct Hp as [[err Hp] | Hp]; rewrite Hp;
      (split; [|reflexivity]);
      (split; [reflexivity|]); (split; [reflexivity|]);
      do 3 eexists; (split; [reflexivity | apply mock_whole]).
  - intros Hk Hm p Hp Hparse. rewrite Hk. simpl negb. cbv iota.
    pose proof (meaningful_gate _ Hm) as Hg.
    destruct (normalize_transcript (transcript rq)) as [arr text]. simpl in Hg |- *.
    rewrite Hg, Hp, Hparse.
    split; [|reflexivity].
    split; [reflexivity|]. split; [reflexivity|].
    do 3 eexists. split; [reflexivity | apply mock_whole].
Qed.

Lemma analyze_provider_failure_degrades_witness :
  degraded_ok (POST (Some (req "f47ac10b-58cc" (TArray transcript1) (Some 120)))
                    (env_internal (Some "sk-test") (ProvContent None)) store0) store0 /\
  resp_metrics (fst (POST (Some (req "f47ac10b-58cc" (TArray transcript1) (Some 120)))
                          (env_internal (Some "sk-test") (ProvContent None)) store0)) =
  Some (generateAnalysisMetrics transcript1 120).
Proof.
  apply (proj2 (proj2 (analyze_provider_failure_degrades
                         (req "f47ac10b-58cc" (TArray transcript1) (Some 120))
                         (env_internal (Some "sk-test") (ProvContent None)) store0
                         eq_refl ltac:(vm_compute; reflexivity)))
           eq_refl ltac:(vm_compute; reflexivity) None eq_refl).
  vm_compute. reflexivity.
Defined.

Lemma existsb_false_filter {A} (p : A -> bool) (l : list A) :
  existsb p l = false -> filter p l = [].
Proof.
  induction l as [|x l IH]; simpl; [reflexivity|].
  destruct (p x); simpl; [discriminate | exact IH].
Qed.

Lemma existsb_true_filter {A} (p : A -> bool) (l : list A) :
  existsb p l = true -> filter p l <> [].
Proof.
  intros H. apply existsb_exists in H. destruct H as [x [Hin Hp]].
  intros E. assert (Hf : In x (filter p l)) by (apply filter_In; auto).
  rewrite E in Hf. exact Hf.
Qed.

(** An upsert leaves exactly one row for its key, provided there was at most
    one before. *)
Lemma filter_upsert_same {A} (key : A -> string) (row : A) (rows : list A) (k : string) :
  key row = k ->
  (length (filter (fun r => String.eqb (key r) k) rows) <= 1)%nat ->
  filter (fun r => String.eqb (key r) k) (upsert key row rows) = [row].
Proof.
  intros Hk Hlen. unfold upsert. rewrite Hk.
  assert (Hmap : forall l,
    filter (fun r => String.eqb (key r) k)
      (map (fun r => if String.eqb (key r) k then row else r) l) =
    map (fun _ => row) (filter (fun r => String.eqb (key r) k) l)).
  { induction l as [|x l IH]; [reflexivity|]. simpl.
    destruct (String.eqb (key x) k) eqn:E; simpl.
    - rewrite Hk, String.eqb_refl, IH. reflexivity.
    - rewrite E, IH. reflexivity. }
  destruct (existsb (fun r => String.eqb (key r) k) rows) eqn:Ex.
  - rewrite Hmap. apply existsb_true_filter in Ex.
    destruct (filter (fun r => String.eqb (key r) k) rows) as [|x [|y l]];
      simpl in Hlen |- *; [congruence | reflexivity | lia].
  - rewrite filter_app, (existsb_false_filter _ _ Ex). simpl.
    rewrite Hk, String.eqb_refl. reflexivity.
Qed.

(** An upsert leaves the rows of every other key as they were. *)
Lemma filter_upsert_other {A} (key : A -> string) (row : A) (rows : list A) (k : string) :
  key row <> k ->
  filter (fun r => String.eqb (key r) k) (upsert key row rows) =
  filter (fun r => String.eqb (key r) k) rows.
Proof.
  intros Hk. unfold upsert.
  destruct (existsb (fun r => String.eqb (key r) (key row)) rows).
  - induction rows as [|x rows IH]; simpl; [reflexivity|].
    destruct (String.eqb (key x) (key row)) eqn:E1; simpl.
    + apply String.eqb_eq in E1.
      rewrite (proj2 (String.eqb_neq _ _) Hk), E1, (proj2 (String.eqb_neq _ _) Hk).
      exact IH.
    + rewrite IH. reflexivity.
  - rewrite filter_app. simpl. rewrite (proj2 (String.eqb_neq _ _) Hk). apply app_nil_r.
Qed.

Lemma get_set_other (k k' : string) (v : Json.t) (f : list (string * Json.t)) :
  String.eqb k k' = false -> get k (set k' v f) = get k f.
Proof.
  intros H. induction f as [|[k1 v1] f IH]; simpl.
  - rewrite H. reflexivity.
  - destruct (String.eqb k' k1) eqn:E; simpl.
    + apply String.eqb_eq in E. subst k1. rewrite H. reflexivity.
    + destruct (String.eqb k k1); [reflexivity | exact IH].
Qed.

Lemma authorize_reject_error (env : Env) (st : Store) (sid : string) (r : Response) :
  authorize env st sid = AuthReject r -> exists c m, r = json_err c m.
Proof.
  unfold authorize. cbv zeta. intros H.
  repeat match type of H with context [match ?x with _ => _ end] => destruct x end;
    try discriminate; injection H as <-; eauto.
Qed.

(** The analysis rows after the database block of the route. *)
Lemma rows_for_persist (env : Env) (st : Store) (sid k : string) (metrics : AnalysisMetrics)
    (analysis final : list (string * Json.t)) :
  (k <> sid -> rows_for k (persist env st sid metrics analysis final) = rows_for k st) /\
  (feedback_summary analysis = None -> rows_for k (persist env st sid metrics analysis final) = rows_for k st) /\
  (feedback_summary analysis <> None -> (length (rows_for sid st) <= 1)%nat ->
   exists row, rows_for sid (persist env st sid metrics analysis final) = [row] /\
               ar_results row = JObj final).
Proof.
  unfold persist, rows_for. destruct (feedback_summary analysis) as [fb|]; simpl.
  - split; [|split].
    + intros Hk. apply filter_upsert_other. simpl. congruence.
    + discriminate.
    + intros _ Hlen. eexists. split; [apply filter_upsert_same; [reflexivity | exact Hlen] | reflexivity].
  - split; [reflexivity|]. split; [reflexivity|]. intros H. congruence.
Qed.



Lemma feedback_summary_final (env : Env) (rq : AnalysisRequest) (an : list (string * Json.t)) :
  feedback_summary
    (set "date" (JStr (now_iso env))
       (set "duration" (JNum (inject_Z (Qfloor (Js.or_num (duration rq) 0 / 60))))
          (set "id" (JStr (sessionId rq)) an))) = feedback_summary an.
Proof.
  unfold feedback_summary.
  rewrite !get_set_other by reflexivity. reflexivity.
Qed.





End AnalyzeRoute.

Section EndRoute.
Import EndSession.

Ltac early_exit := split; [reflexivity | intros ? []].

(** C9. The status of the end-session answer does not depend on how the
    analysis trigger ends (success, an error status or a rejected fetch),
    and the audit record only marks the analysis as triggered when the
    trigger succeeded: a failed trigger is recorded as not triggered. *)
Theorem end_session_ignores_trigger_outcome :
  forall (body : option EndRequest) (env : EndEnv) (ao1 ao2 : TriggerOutcome),
    e_status (fst (EndSession.POST body env ao1)) =
    e_status (fst (EndSession.POST body env ao2)) /\
    (forall a, In a (snd (EndSession.POST body env ao1)) ->
               au_analysis_triggered a = true -> ao1 = TriggerOk).
Proof.
  intros body env ao1 ao2. unfold EndSession.POST. cbv zeta.
  destruct body as [data|]; [|early_exit].
  destruct (validateEndSession data) as [v|]; [|early_exit].
  destruct (Js.startsWith (v_session_id v) "demo-"); [early_exit|].
  destruct (e_authorization env) as [h|]; [|early_exit].
  destruct (String.eqb h EmptyString); [early_exit|].
  destruct (e_getUser env h) as [u|]; [|early_exit].
  destruct (e_profile_by_auth_id env u) as [p|]; [|early_exit].
  destruct (e_session_status env (v_session_id v) (p_id p)) as [s|]; [|early_exit].
  destruct (negb (String.eqb s "active")); [early_exit|].
  destruct (negb (e_update_ok env)); [early_exit|].
  split; [reflexivity|].
  intros a [<- | []]. simpl.
  destruct (nonempty (v_transcript v)); [|discriminate].
  destruct ao1; congruence.
Qed.

Lemma end_session_ignores_trigger_outcome_witness :
  e_status (fst (EndSession.POST
    (Some {| session_id := Some (Json.JStr "demo-1"); duration_seconds := Some (Json.JNum 90);
             transcript := Some (Json.JArr [Json.JStr "hi"]); audio_quality := None |})
    {| e_authorization := None; e_getUser := fun _ => None;
       e_profile_by_auth_id := fun _ => None; e_session_status := fun _ _ => None;
       e_update_ok := true; e_now_iso := "2026-10-17T00:00:00.000Z";
       e_score_draw := Samples.draw0 |} TriggerThrows)) = 200%N.
Proof.
  rewrite (proj1 (end_session_ignores_trigger_outcome
    (Some {| session_id := Some (Json.JStr "demo-1"); duration_seconds := Some (Json.JNum 90);
             transcript := Some (Json.JArr [Json.JStr "hi"]); audio_quality := None |})
    {| e_authorization := None; e_getUser := fun _ => None;
       e_profile_by_auth_id := fun _ => None; e_session_status := fun _ _ => None;
       e_update_ok := true; e_now_iso := "2026-10-17T00:00:00.000Z";
       e_score_draw := Samples.draw0 |} TriggerThrows TriggerOk)).
  vm_compute. reflexivity.
Defined.

End EndRoute.

(** ** Further properties of the metrics engine *)
Section MetricsFacts.
Import Metrics.

Lemma filter_length_le {A} (p : A -> bool) (l : list A) :
  (length (filter p l) <= length l)%nat.
Proof. induction l as [|x l IH]; simpl; [lia|]. destruct (p x); simpl; lia. Qed.

Lemma ratio_bounds (a b : nat) :
  (a <= b)%nat -> (0 < b)%nat ->
  0 <= inject_Z (Z.of_nat a) / inject_Z (Z.of_nat b) <= 1.
Proof.
  intros Hab Hb.
  assert (Hb' : 0 < inject_Z (Z.of_nat b))
    by (change 0 with (inject_Z 0); rewrite <- Zlt_Qlt; lia).
  split.
  - apply Qle_shift_div_l; [exact Hb'|].
    rewrite Qmult_0_l. change 0 with (inject_Z 0). rewrite <- Zle_Qle. lia.
  - apply Qle_shift_div_r; [exact Hb'|].
    rewrite Qmult_1_l. rewrite <- Zle_Qle. lia.
Qed.

(** The share of user messages is a proportion, and 0 for an empty
    transcript. *)
Theorem calculateTalkTimeRatio_bounds (T : list TranscriptMessage) :
  0 <= calculateTalkTimeRatio T <= 1 /\ calculateTalkTimeRatio [] = 0.
Proof.
  split; [|reflexivity].
  unfold calculateTalkTimeRatio. destruct T as [|m T'].
  - split; discriminate.
  - cbv zeta. cbn [length Nat.ltb Nat.leb].
    apply ratio_bounds; [apply (filter_length_le _ (m :: T')) | simpl; lia].
Qed.

Lemma Qfloor_zero (q : Q) : 0 <= q -> q < 1 -> Qfloor q = 0%Z.
Proof.
  intros H0 H1.
  pose proof (Qfloor_le q) as Hl. pose proof (Qlt_floor q) as Hu.
  assert (A : (Qfloor q < 1)%Z).
  { rewrite Zlt_Qlt. apply (Qle_lt_trans _ q); [exact Hl | exact H1]. }
  assert (B : (0 < Qfloor q + 1)%Z).
  { rewrite Zlt_Qlt. apply (Qle_lt_trans _ q); [exact H0 | exact Hu]. }
  lia.
Qed.

Lemma round_nonneg (q : Q) : 0 <= q -> (0 <= Js.round q)%Z.
Proof.
  intros H. unfold Js.round.
  rewrite <- (Qfloor_Z 0). apply Qfloor_resp_le.
  apply (Qle_trans _ q); [exact H|].
  rewrite <- (Qplus_0_r q) at 1. apply Qplus_le_compat; [apply Qle_refl | discriminate].
Qed.

Lemma Qeq_bool_false_le (q : Q) :
  (Qeq_bool q 0 || Qle_bool q 0) = false -> 0 < q.
Proof.
  intros H. apply orb_false_iff in H. destruct H as [_ H].
  apply Qnot_le_lt. intros Hq. apply Qle_bool_iff in Hq. congruence.
Qed.

Lemma Qeq_bool_true_le (q : Q) : q <= 0 -> (Qeq_bool q 0 || Qle_bool q 0) = true.
Proof. intros H. apply Qle_bool_iff in H. rewrite H. apply orb_true_r. Qed.

Lemma trimEnd_idem (s : string) : Js.trimEnd (Js.trimEnd s) = Js.trimEnd s.
Proof.
  induction s as [|c s IH]; simpl; [reflexivity|].
  destruct (Js.is_ws c && String.eqb (Js.trimEnd s) EmptyString) eqn:E; [reflexivity|].
  simpl. rewrite IH, E. reflexivity.
Qed.

Lemma trimStart_idem (s : string) : Js.trimStart (Js.trimStart s) = Js.trimStart s.
Proof.
  induction s as [|c s IH]; simpl; [reflexivity|].
  destruct (Js.is_ws c) eqn:E; [exact IH|]. simpl. rewrite E. reflexivity.
Qed.

Lemma trimStart_trimEnd_head (s : string) :
  Js.trimStart s = s -> Js.trimStart (Js.trimEnd s) = Js.trimEnd s.
Proof.
  destruct s as [|c s]; simpl; [reflexivity|].
  destruct (Js.is_ws c) eqn:E.
  - intros H. pose proof (f_equal String.length H) as L.
    assert (Hle : forall t, (String.length (Js.trimStart t) <= String.length t)%nat).
    { induction t as [|d t IHt]; simpl; [lia|]. destruct (Js.is_ws d); simpl; lia. }
    specialize (Hle s). simpl in L. lia.
  - intros _. simpl. rewrite ?E. reflexivity.
Qed.

Lemma trim_idem (s : string) : Js.trim (Js.trim s) = Js.trim s.
Proof.
  unfold Js.trim.
  rewrite (trimStart_trimEnd_head _ (trimStart_idem s)), trimEnd_idem. reflexivity.
Qed.

Lemma lower_char_question (c : ascii) : Js.lower_char c = "?"%char -> c = "?"%char.
Proof.
  destruct c as [[] [] [] [] [] [] [] []]; vm_compute; intros H;
    first [reflexivity | discriminate H].
Qed.

Lemma prefix_ci_get (pat s : string) (i : nat) :
  prefix_ci pat s = true -> (i < String.length pat)%nat ->
  exists c p, String.get i s = Some c /\ String.get i pat = Some p /\
              Js.lower_char p = Js.lower_char c.
Proof.
  revert s i. induction pat as [|p pat IH]; intros s i H Hi; simpl in Hi; [lia|].
  destruct s as [|c s]; simpl in H; [discriminate|].
  apply andb_true_iff in H. destruct H as [Hc H].
  destruct i as [|i].
  - exists c, p. simpl. split; [reflexivity|]. split; [reflexivity|].
    apply Ascii.eqb_eq in Hc. exact Hc.
  - simpl. apply IH; [exact H | lia].
Qed.

(** No match of a filler ending in [?] at a position whose [?] is followed
    by a non-word character. *)
Lemma match_at_question (pat : string) (prev : option ascii) (s : string) :
  String.length pat <> O ->
  String.get (String.length pat - 1) pat = Some "?"%char ->
  (forall i, String.get i s = Some "?"%char -> word_at (String.get (S i) s) = false) ->
  match_at pat prev s = false.
Proof.
  intros Hn Hq Hs. unfold match_at.
  destruct (prefix_ci pat s) eqn:Hp; [|rewrite andb_false_r; reflexivity].
  destruct (String.length pat) as [|k] eqn:Hl; [contradiction|].
  simpl in Hq. rewrite Nat.sub_0_r in Hq.
  destruct (prefix_ci_get pat s k Hp ltac:(lia)) as (c & p & Hc & Hp' & Heq).
  rewrite Hq in Hp'. injection Hp' as <-.
  assert (c = "?"%char) by (apply lower_char_question; rewrite <- Heq; reflexivity).
  subst c. specialize (Hs k Hc). unfold boundary. rewrite Hc, Hs.
  rewrite andb_false_r. reflexivity.
Qed.

Lemma scan_question (pat : string) (k : nat) (prev : option ascii) (s : string) :
  String.length pat <> O ->
  String.get (String.length pat - 1) pat = Some "?"%char ->
  (forall i, String.get i s = Some "?"%char -> word_at (String.get (S i) s) = false) ->
  scan pat k prev s = O.
Proof.
  intros Hn Hq. revert k prev. induction s as [|c s IH]; intros k prev Hs; [reflexivity|].
  assert (Hs' : forall i, String.get i s = Some "?"%char -> word_at (String.get (S i) s) = false)
    by (intros i Hi; exact (Hs (S i) Hi)).
  simpl. destruct k as [|k].
  - rewrite (match_at_question pat prev (String c s) Hn Hq Hs). apply IH. exact Hs'.
  - apply IH. exact Hs'.
Qed.

Lemma fold_count_zero (text : string) (ws : list string) (acc : nat) :
  (forall w, In w ws -> count_matches w text = O) ->
  fold_left (fun c w => (c + count_matches w text)%nat) ws acc = acc.
Proof.
  revert acc. induction ws as [|w ws IH]; intros acc H; [reflexivity|].
  cbn [fold_left]. rewrite (H w (or_introl eq_refl)), Nat.add_0_r.
  apply IH. intros w' Hw. apply H. right. exact Hw.
Qed.

(** [calculateSentimentScore] is a proportion, neutral (1/2) when no
    positive or negative word occurs in the lower-cased transcript text. *)
Theorem calculateSentimentScore_bounds (T : list TranscriptMessage) :
  0 <= calculateSentimentScore T <= 1 /\
  ((forall w, In w positiveWords \/ In w negativeWords ->
     count_matches w (Js.toLowerCase (extractTranscriptText T)) = O) ->
   calculateSentimentScore T = 1 # 2).
Proof.
  split.
  - unfold calculateSentimentScore. cbv zeta.
    match goal with |- context [if (?a + ?b =? 0)%nat then _ else _] =>
      destruct (a + b =? 0)%nat eqn:E end.
    + split; discriminate.
    + apply Nat.eqb_neq in E. apply ratio_bounds; lia.
  - intros H. unfold calculateSentimentScore. cbv zeta.
    rewrite (fold_count_zero _ positiveWords O (fun w Hw => H w (or_introl Hw))).
    rewrite (fold_count_zero _ negativeWords O (fun w Hw => H w (or_intror Hw))).
    reflexivity.
Qed.

Lemma calculateSentimentScore_bounds_witness :
  calculateSentimentScore [msg "user" "hello there"] = 1 # 2.
Proof.
  apply (proj2 (calculateSentimentScore_bounds [msg "user" "hello there"])).
  assert (Hall : forallb (fun w => Nat.eqb (count_matches w
                   (Js.toLowerCase (extractTranscriptText [msg "user" "hello there"]))) O)
                   (positiveWords ++ negativeWords) = true) by (vm_compute; reflexivity).
  intros w Hw. apply Nat.eqb_eq.
  exact (proj1 (forallb_forall _ _) Hall w (proj2 (in_app_iff _ _ _) Hw)).
Defined.

(** [calculateSpeakingPace] is never negative, and is 0 for a duration that
    is not positive. *)
Theorem calculateSpeakingPace_nonneg (T : list TranscriptMessage) (d : Q) :
  (0 <= calculateSpeakingPace T d)%Z /\
  (d <= 0 -> calculateSpeakingPace T d = 0%Z).
Proof.
  unfold calculateSpeakingPace. cbv zeta. split.
  - destruct (Qeq_bool d 0 || Qle_bool d 0) eqn:E; [lia|].
    apply Qeq_bool_false_le in E.
    destruct (negb (Qle_bool (d / 60) 0)) eqn:E2; [|lia].
    apply round_nonneg.
    assert (Hm : 0 < d / 60).
    { apply Qlt_shift_div_l; [reflexivity|]. rewrite Qmult_0_l. exact E. }
    apply Qle_shift_div_l; [exact Hm|]. rewrite Qmult_0_l.
    change 0 with (inject_Z 0). rewrite <- Zle_Qle. lia.
  - intros Hd. rewrite (Qeq_bool_true_le d Hd). reflexivity.
Qed.

Lemma calculateSpeakingPace_nonneg_witness :
  calculateSpeakingPace Samples.transcript1 (-(30)) = 0%Z.
Proof.
  apply (proj2 (calculateSpeakingPace_nonneg Samples.transcript1 (-(30)))).
  discriminate.
Defined.

(** On an empty transcript every metric takes its neutral value, whatever
    the duration. *)
Theorem generateAnalysisMetrics_empty (d : Q) :
  generateAnalysisMetrics [] d =
  {| talkTimeRatio := 0; fillerWordsCount := 0; speakingPaceWpm := 0;
     sentimentScore := 1 # 2 |}.
Proof.
  unfold generateAnalysisMetrics. f_equal.
  unfold calculateSpeakingPace.
  destruct (Qeq_bool d 0 || Qle_bool d 0) eqn:E; [reflexivity|].
  apply Qeq_bool_false_le in E.
  destruct (negb (Qle_bool (d / 60) 0)); [|reflexivity].
  unfold Js.round. apply Qfloor_zero.
  - cbn [extractTranscriptText Js.split_ws Js.split_ws_aux filter length].
    unfold Qdiv. rewrite Qmult_0_l. discriminate.
  - cbn [extractTranscriptText Js.split_ws Js.split_ws_aux filter length].
    unfold Qdiv. rewrite Qmult_0_l. reflexivity.
Qed.

(** The fillers "right?" and "okay?" end in a non-word character, so the
    [\b] after them needs a word character right after the [?]: in a text
    where every [?] is followed by a non-word character or ends the text,
    they are never counted. *)
Theorem count_matches_question_fillers (t : string) :
  (forall i, String.get i t = Some "?"%char -> word_at (String.get (S i) t) = false) ->
  count_matches "right?" t = O /\ count_matches "okay?" t = O.
Proof.
  intros Ht. unfold count_matches.
  split; apply scan_question; first [discriminate | reflexivity | exact Ht].
Qed.

Lemma count_matches_question_fillers_witness :
  count_matches "right?" "okay? right? so" = O /\ count_matches "okay?" "okay? right? so" = O.
Proof.
  apply count_matches_question_fillers.
  intros [|[|[|[|[|[|[|[|[|[|[|[|[|[|[|i]]]]]]]]]]]]]]]; simpl;
    first [reflexivity | discriminate | intros H; discriminate H | destruct i; discriminate].
Defined.

(** The text [extractTranscriptText] returns is already trimmed. *)
Theorem extractTranscriptText_trimmed (T : list TranscriptMessage) :
  Js.trim (extractTranscriptText T) = extractTranscriptText T.
Proof. destruct T as [|m T]; [reflexivity|]. apply trim_idem. Qed.

End MetricsFacts.

(** ** Further properties of the shared utilities and the end-session route *)
Section EndFacts.
Import SessionUtils EndSession.

Lemma Qceiling_pos (q : Q) : 0 < q -> (1 <= Qceiling q)%Z.
Proof.
  intros H. pose proof (Qle_ceiling q) as Hc.
  assert (H' : inject_Z 0 < inject_Z (Qceiling q)) by (unfold inject_Z at 1; lra).
  rewrite <- Zlt_Qlt in H'. lia.
Qed.

Lemma minutes_pos (d : Q) : 0 < d -> (1 <= Qceiling (d / 60))%Z.
Proof.
  intros H. apply Qceiling_pos. apply Qlt_shift_div_l; [reflexivity|]. lra.
Qed.

Lemma validate_duration_pos (data : EndRequest) (v : Validated) :
  validateEndSession data = Some v -> 0 < v_duration_seconds v.
Proof.
  unfold validateEndSession.
  destruct (session_id data) as [[]|]; try discriminate.
  destruct (String.eqb s EmptyString); [discriminate|].
  destruct (duration_seconds data) as [[]|]; try discriminate.
  destruct (Qeq_bool q 0 || Qle_bool q 0) eqn:E; [discriminate|].
  apply Qeq_bool_false_le in E.
  destruct (EndSession.transcript data) as [[]|]; try (destruct (Analyze.truthy _));
    intros H; try discriminate H; injection H as <-; exact E.
Qed.

Lemma Qfloor_between (q : Q) (lo hi : Z) :
  inject_Z lo <= q -> q < inject_Z (hi + 1) -> (lo <= Qfloor q <= hi)%Z.
Proof.
  intros Hl Hh. split.
  - rewrite <- (Qfloor_Z lo). apply Qfloor_resp_le. exact Hl.
  - pose proof (Qfloor_le q) as F.
    assert (Hlt : inject_Z (Qfloor q) < inject_Z (hi + 1)) by lra.
    rewrite <- Zlt_Qlt in Hlt. lia.
Qed.

Lemma draw_val_bounds (d : Analyze.Draw) : 0 <= Analyze.draw_val d /\ Analyze.draw_val d < 1.
Proof.
  unfold Analyze.draw_val.
  assert (Hb : 0 < inject_Z (Z.of_N (Analyze.d_num d + Analyze.d_rest d + 1))).
  { change 0 with (inject_Z 0). rewrite <- Zlt_Qlt. lia. }
  split.
  - apply Qle_shift_div_l; [exact Hb|]. rewrite Qmult_0_l.
    change 0 with (inject_Z 0). rewrite <- Zle_Qle. lia.
  - apply Qlt_shift_div_r; [exact Hb|]. rewrite Qmult_1_l.
    rewrite <- Zlt_Qlt. lia.
Qed.

(** [isDemoSession]'s ["demo-"] prefix test is subsumed by its ["demo"]
    substring test: an identifier is a demo one exactly when the status is
    ["demo"], or it starts with ["temp-"], or it contains ["demo"]. *)
Theorem isDemoSession_simplified (sessionId status : option string) :
  isDemoSession sessionId status =
  match status with Some s => String.eqb s "demo" | None => false end ||
  match sessionId with
  | Some id => Js.startsWith id "temp-" || Js.includes id "demo"
  | None => false
  end.
Proof.
  unfold isDemoSession.
  destruct (match status with Some s => String.eqb s "demo" | None => false end); [reflexivity|].
  simpl. destruct sessionId as [id|]; [|reflexivity].
  destruct (Js.startsWith id "demo-") eqn:E.
  - apply prefix_app_iff in E. destruct E as [suf ->].
    symmetry. apply orb_true_iff. right.
    exact (includes_app EmptyString "demo" ("-" ++ suf)).
  - destruct (Js.startsWith id "temp-"); [reflexivity|].
    destruct (Js.includes id "demo"); reflexivity.
Qed.

(** A valid end-session request for a ["demo-"] session is answered 200
    whatever the credentials and the trigger's outcome: it costs 0, uses at
    least one minute, reports a score between 3.5 and 5.5, reports the
    analysis as triggered exactly when a non-empty transcript was sent, and
    writes no audit record. *)
Theorem end_session_demo_response (data : EndRequest) (env : EndEnv) (ao : TriggerOutcome)
    (v : Validated) :
  validateEndSession data = Some v ->
  Js.startsWith (v_session_id v) "demo-" = true ->
  snd (EndSession.POST (Some data) env ao) = [] /\
  e_status (fst (EndSession.POST (Some data) env ao)) = 200%N /\
  exists mu score,
    e_body (fst (EndSession.POST (Some data) env ao)) =
      EBDemo (v_session_id v) "completed" (e_now_iso env) (v_duration_seconds v) 0 mu score
             (nonempty (v_transcript v)) /\
    (1 <= mu)%Z /\ 7 # 2 <= score <= 11 # 2.
Proof.
  intros Hv Hd. pose proof (validate_duration_pos _ _ Hv) as Hpos.
  unfold EndSession.POST. cbv zeta. rewrite Hv, Hd.
  split; [reflexivity|]. split; [reflexivity|].
  eexists. eexists. split; [reflexivity|].
  split; [apply minutes_pos; exact Hpos|].
  destruct (draw_val_bounds (e_score_draw env)) as [R0 R1].
  set (r := Analyze.draw_val (e_score_draw env)) in *.
  assert (B : (35 <= Js.round ((r * 2 + (35 # 10)) * 10) <= 55)%Z).
  { unfold Js.round. apply Qfloor_between; change (55 + 1)%Z with 56%Z; unfold inject_Z; lra. }
  set (z := Js.round ((r * 2 + (35 # 10)) * 10)) in *.
  split.
  - apply Qle_shift_div_l; [reflexivity|]. unfold Qle; simpl; lia.
  - apply Qle_shift_div_r; [reflexivity|]. unfold Qle; simpl; lia.
Qed.

Lemma end_session_demo_response_witness :
  e_status (fst (EndSession.POST
    (Some {| session_id := Some (Json.JStr "demo-7"); duration_seconds := Some (Json.JNum 61);
             EndSession.transcript := None; audio_quality := None |})
    {| e_authorization := None; e_getUser := fun _ => None;
       e_profile_by_auth_id := fun _ => None; e_session_status := fun _ _ => None;
       e_update_ok := false; e_now_iso := "2026-10-17T00:00:00.000Z";
       e_score_draw := Samples.draw0 |} TriggerThrows)) = 200%N.
Proof.
  apply (proj1 (proj2 (end_session_demo_response
    {| session_id := Some (Json.JStr "demo-7"); duration_seconds := Some (Json.JNum 61);
       EndSession.transcript := None; audio_quality := None |}
    {| e_authorization := None; e_getUser := fun _ => None;
       e_profile_by_auth_id := fun _ => None; e_session_status := fun _ _ => None;
       e_update_ok := false; e_now_iso := "2026-10-17T00:00:00.000Z";
       e_score_draw := Samples.draw0 |} TriggerThrows
    {| v_session_id := "demo-7"; v_duration_seconds := 61; v_transcript := None |}
    eq_refl eq_refl))).
Defined.

Ltac no_audit := simpl; intros ? ? ? ? ? ? ? ? ? H; discriminate H.

(** The end-session route writes an audit record exactly when it answers
    a real session's end with its session body; the record then agrees
    with the answer (session, minutes used, transcript provided, analysis
    triggered), the status is 200, at least one minute is used and the
    cost is a tenth per minute. *)
Theorem end_session_audit_matches_response
    (body : option EndRequest) (env : EndEnv) (ao : TriggerOutcome) :
  match snd (EndSession.POST body env ao) with
  | [] => forall id s e d mc mu ts tr ps,
            e_body (fst (EndSession.POST body env ao)) <> EBSession id s e d mc mu ts tr ps
  | [au] =>
      e_status (fst (EndSession.POST body env ao)) = 200%N /\ (1 <= au_minutes_used au)%Z /\
      exists s e d mc ps,
        e_body (fst (EndSession.POST body env ao)) =
          EBSession (au_session_id au) s e d mc (au_minutes_used au)
                    (au_transcript_provided au) (au_analysis_triggered au) ps /\
        mc == inject_Z (au_minutes_used au) * (1 # 10)
  | _ :: _ :: _ => False
  end.
Proof.
  unfold EndSession.POST. cbv zeta.
  destruct body as [data|]; [|no_audit].
  destruct (validateEndSession data) as [v|] eqn:Hv; [|no_audit].
  destruct (Js.startsWith (v_session_id v) "demo-"); [no_audit|].
  destruct (e_authorization env) as [h|]; [|no_audit].
  destruct (String.eqb h EmptyString); [no_audit|].
  destruct (e_getUser env h) as [u|]; [|no_audit].
  destruct (e_profile_by_auth_id env u) as [p|]; [|no_audit].
  destruct (e_session_status env (v_session_id v) (p_id p)) as [s|]; [|no_audit].
  destruct (negb (String.eqb s "active")); [no_audit|].
  destruct (negb (e_update_ok env)); [no_audit|].
  simpl. split; [reflexivity|].
  split; [apply minutes_pos; exact (validate_duration_pos _ _ Hv)|].
  do 5 eexists. split; [reflexivity | apply Qeq_refl].
Qed.

End EndFacts.

(** ** Further properties of the analyze route *)
Section AnalyzeFacts.
Import Metrics Json Analyze Observe Samples.

Lemma get_set_same (k : string) (v : Json.t) (f : list (string * Json.t)) :
  get k (set k v f) = Some v.
Proof.
  induction f as [|[k1 v1] f IH]; simpl.
  - rewrite String.eqb_refl. reflexivity.
  - destruct (String.eqb k k1) eqn:E; simpl.
    + rewrite E. reflexivity.
    + rewrite E. exact IH.
Qed.

(** An answer carrying a non-demo analysis comes only from the main path:
    the whole route, from its guards to the database block. *)
Lemma POST_success_inv (rq : AnalysisRequest) (env : Env) (st : Store)
    (a : Json.t) (m : option AnalysisMetrics) (e : option string) :
  body (fst (POST (Some rq) env st)) = BAnalysis a m false e ->
  Js.startsWith (sessionId rq) "demo-" = false /\
  authorize env st (sessionId rq) = AuthOk /\
  Js.truthy_str (OPENAI_API_KEY env) = true /\
  meaningful (transcript rq) = true /\
  exists p an,
    provider env = ProvContent p /\ parseAnalysisResponse p = Some an /\
    a = JObj (set "date" (JStr (now_iso env))
                (set "duration" (JNum (inject_Z (Qfloor (Js.or_num (duration rq) 0 / 60))))
                   (set "id" (JStr (sessionId rq)) an))) /\
    m = Some (generateAnalysisMetrics (fst (normalize_transcript (transcript rq)))
                                      (Js.or_num (duration rq) 0)) /\
    e = None /\ status (fst (POST (Some rq) env st)) = 200%N /\
    snd (POST (Some rq) env st) =
      persist env st (sessionId rq)
        (generateAnalysisMetrics (fst (normalize_transcript (transcript rq)))
                                 (Js.or_num (duration rq) 0)) an
        (set "date" (JStr (now_iso env))
           (set "duration" (JNum (inject_Z (Qfloor (Js.or_num (duration rq) 0 / 60))))
              (set "id" (JStr (sessionId rq)) an))).
Proof.
  intros Hb. unfold POST in Hb |- *. cbv zeta in Hb |- *.
  destruct (Js.startsWith (sessionId rq) "demo-") eqn:Hd; [discriminate Hb|].
  split; [reflexivity|].
  destruct (authorize env st (sessionId rq)) as [|r] eqn:Ha.
  2:{ destruct (authorize_reject_error _ _ _ _ Ha) as (c & msg & ->). discriminate Hb. }
  split; [reflexivity|].
  destruct (Js.truthy_str (OPENAI_API_KEY env)) eqn:Hk; [|discriminate Hb].
  split; [reflexivity|].
  unfold meaningful.
  destruct (normalize_transcript (transcript rq)) as [arr text]. cbn [snd fst] in *.
  destruct (String.eqb text EmptyString || (String.length text <? 20)%nat) eqn:Hg;
    [discriminate Hb|].
  apply orb_false_iff in Hg as [G1 G2]. rewrite G1, G2. split; [reflexivity|].
  destruct (provider env) as [err| |p] eqn:Hp; [discriminate Hb | discriminate Hb|].
  destruct (parseAnalysisResponse p) as [an|] eqn:Hpa; [|discriminate Hb].
  injection Hb as <- <- <-.
  exists p, an. repeat split; first [assumption | reflexivity].
Qed.

(** The analyze route answers 200, or rejects the caller with 401 or 404
    and leaves the store as it was; it never answers a server error. *)
Theorem analyze_status_codes (body : option AnalysisRequest) (env : Env) (st : Store) :
  status (fst (POST body env st)) = 200%N \/
  (snd (POST body env st) = st /\
   exists m, fst (POST body env st) = json_err 401 m \/ fst (POST body env st) = json_err 404 m).
Proof.
  destruct body as [rq|]; [|left; reflexivity].
  unfold POST. cbv zeta.
  destruct (Js.startsWith (sessionId rq) "demo-"); [left; reflexivity|].
  destruct (authorize env st (sessionId rq)) as [|r] eqn:Ha.
  2:{ right. split; [reflexivity|]. exact (authorize_reject_codes _ _ _ _ Ha). }
  left. destruct (negb (Js.truthy_str (OPENAI_API_KEY env))); [reflexivity|].
  destruct (normalize_transcript (transcript rq)) as [arr text].
  destruct (String.eqb text EmptyString || (String.length text <? 20)%nat); [reflexivity|].
  destruct (provider env) as [err| |p]; try reflexivity.
  destruct (parseAnalysisResponse p); reflexivity.
Qed.

Lemma session_single_in (st : Store) (sid : string) (r : SessionRow) :
  session_single st sid = Some r -> s_id r = sid /\ In r (st_sessions st).
Proof.
  unfold session_single. intros H.
  destruct (filter (fun r => String.eqb (s_id r) sid) (st_sessions st)) as [|x [|y l]] eqn:F;
    try discriminate H.
  injection H as ->.
  assert (Hin : In r (filter (fun r => String.eqb (s_id r) sid) (st_sessions st)))
    by (rewrite F; left; reflexivity).
  apply filter_In in Hin as [Hin Hk]. apply String.eqb_eq in Hk. split; assumption.
Qed.

(** [authorize] lets a caller through only with the matching server secret,
    or with an authorization header whose user's profile owns the one
    stored session with the requested id. *)
Theorem authorize_ok_owner (env : Env) (st : Store) (sid : string) :
  authorize env st sid = AuthOk ->
  (exists k, hdr_x_server_secret env = Some k /\ SERVER_SECRET env = Some k /\
             k <> EmptyString) \/
  (exists h uid pid r,
     hdr_authorization env = Some h /\ getUser env h = Some uid /\
     profile_by_auth_id env uid = Some pid /\ session_single st sid = Some r /\
     s_id r = sid /\ In r (st_sessions st) /\ s_profile_id r = Some pid).
Proof.
  unfold authorize. cbv zeta. intros H.
  destruct (Js.truthy_str (hdr_x_server_secret env) &&
            match hdr_x_server_secret env, SERVER_SECRET env with
            | Some a, Some b => String.eqb a b
            | _, _ => false
            end) eqn:E.
  - left. destruct (hdr_x_server_secret env) as [k|]; [|discriminate E].
    destruct (SERVER_SECRET env) as [k'|]; [|rewrite andb_false_r in E; discriminate E].
    apply andb_true_iff in E as [E1 E2]. apply String.eqb_eq in E2. subst k'.
    exists k. split; [reflexivity|]. split; [reflexivity|].
    intros ->. discriminate E1.
  - right. destruct (Js.truthy_str (hdr_authorization env)); [|discriminate H].
    destruct (hdr_authorization env) as [h|] eqn:Hh; [|discriminate H].
    destruct (getUser env h) as [uid|] eqn:Hu; [|discriminate H].
    destruct (profile_by_auth_id env uid) as [pid|] eqn:Hpid; [|discriminate H].
    destruct (session_single st sid) as [r|] eqn:Hr; [|discriminate H].
    destruct (s_profile_id r) as [p|] eqn:Hpr; [|discriminate H].
    destruct (String.eqb_spec p pid) as [->|]; [|discriminate H].
    destruct (session_single_in _ _ _ Hr) as [Hid Hin].
    exists h, uid, pid, r. repeat split; assumption.
Qed.

Lemma authorize_ok_owner_witness :
  (exists k, hdr_x_server_secret (env_internal None ProvNoContent) = Some k /\
             SERVER_SECRET (env_internal None ProvNoContent) = Some k /\ k <> EmptyString) \/
  (exists h uid pid r,
     hdr_authorization (env_internal None ProvNoContent) = Some h /\
     getUser (env_internal None ProvNoContent) h = Some uid /\
     profile_by_auth_id (env_internal None ProvNoContent) uid = Some pid /\
     session_single store0 "f47ac10b-58cc" = Some r /\
     s_id r = "f47ac10b-58cc" /\ In r (st_sessions store0) /\ s_profile_id r = Some pid).
Proof.
  apply (authorize_ok_owner (env_internal None ProvNoContent) store0 "f47ac10b-58cc").
  vm_compute. reflexivity.
Defined.

End AnalyzeFacts.

(** ** The success path of the analyze route *)
Section AnalyzeSuccess.
Import Metrics Json Analyze Observe Samples.

Lemma filter_map_invariant {A} (p : A -> bool) (f : A -> A) (l : list A) :
  (forall x, p (f x) = p x) -> filter p (map f l) = map f (filter p l).
Proof.
  intros Hf. induction l as [|x l IH]; simpl; [reflexivity|].
  rewrite Hf. destruct (p x); simpl; rewrite IH; reflexivity.
Qed.

(** The session rows after the database block. *)
Lemma persist_sessions (env : Env) (st : Store) (sid : string) (metrics : AnalysisMetrics)
    (an fin : list (string * Json.t)) (fb : option string) :
  feedback_summary an = Some fb ->
  st_sessions (persist env st sid metrics an fin) =
  map (fun r => if String.eqb (s_id r) sid then
                  {| s_id := s_id r; s_profile_id := s_profile_id r;
                     s_company_id := s_company_id r;
                     s_status := "analyzed"; s_processing_status := "completed";
                     s_feedback_summary := fb; s_analyzed_at := Some (now_iso env) |}
                else r) (st_sessions st).
Proof. intros H. unfold persist. rewrite H. reflexivity. Qed.

(** The analytics row the database block leaves for the session. *)
Lemma persist_analytics_row (env : Env) (st : Store) (sid : string) (metrics : AnalysisMetrics)
    (an fin : list (string * Json.t)) (fb : option string) :
  feedback_summary an = Some fb ->
  (length (filter (fun r => String.eqb (an_session_id r) sid) (st_session_analytics st)) <= 1)%nat ->
  exists row,
    filter (fun r => String.eqb (an_session_id r) sid)
           (st_session_analytics (persist env st sid metrics an fin)) = [row] /\
    an_metrics row = metrics /\ an_analysis row = an /\ an_created_at row = now_iso env /\
    (forall r, session_single st sid = Some r ->
               an_profile_id row = s_profile_id r /\ an_company_id row = s_company_id r).
Proof.
  intros Hfb Hlen. unfold persist. rewrite Hfb.
  cbn [st_sessions st_analysis_results st_session_analytics].
  eexists. split; [apply filter_upsert_same; [reflexivity | exact Hlen]|].
  cbn [an_metrics an_analysis an_created_at an_profile_id an_company_id].
  split; [reflexivity|]. split; [reflexivity|]. split; [reflexivity|].
  intros r Hr. unfold session_single in Hr |- *. cbn [st_sessions].
  rewrite filter_map_invariant by (intros x; destruct (String.eqb (s_id x) sid) eqn:E;
                                   cbn [s_id]; rewrite ?E; reflexivity).
  destruct (filter (fun r => String.eqb (s_id r) sid) (st_sessions st)) as [|x [|y l]];
    try discriminate Hr.
  injection Hr as ->. cbn [map].
  destruct (String.eqb (s_id r) sid); split; reflexivity.
Qed.

(** The analyses the database block stores are the answered ones. *)
Lemma feedback_summary_final_some (env : Env) (rq : AnalysisRequest) (an : list (string * Json.t)) :
  feedback_summary
    (set "date" (JStr (now_iso env))
       (set "duration" (JNum (inject_Z (Qfloor (Js.or_num (duration rq) 0 / 60))))
          (set "id" (JStr (sessionId rq)) an))) <> None ->
  exists fb, feedback_summary an = Some fb.
Proof.
  rewrite feedback_summary_final. destruct (feedback_summary an) as [fb|].
  - intros _. exists fb. reflexivity.
  - intros H. exfalso. apply H. reflexivity.
Qed.

(** An answer with a non-demo analysis is only given when the session id is
    not a ["demo-"] one, the caller is authorized, the provider key is set,
    the transcript text has at least 20 characters and the provider's reply
    was parsed; it is a 200 without error and carries the metrics of the
    real transcript. *)
Theorem analyze_real_analysis_requires (rq : AnalysisRequest) (env : Env) (st : Store)
    (a : Json.t) (m : option AnalysisMetrics) (e : option string) :
  body (fst (POST (Some rq) env st)) = BAnalysis a m false e ->
  Js.startsWith (sessionId rq) "demo-" = false /\
  authorize env st (sessionId rq) = AuthOk /\
  Js.truthy_str (OPENAI_API_KEY env) = true /\
  (20 <= String.length (snd (normalize_transcript (transcript rq))))%nat /\
  (exists p an, provider env = ProvContent p /\ parseAnalysisResponse p = Some an) /\
  status (fst (POST (Some rq) env st)) = 200%N /\ e = None /\
  m = Some (generateAnalysisMetrics (fst (normalize_transcript (transcript rq)))
                                    (Js.or_num (duration rq) 0)).
Proof.
  intros Hb.
  destruct (POST_success_inv rq env st a m e Hb)
    as (Hd & Ha & Hk & Hm & p & an & Hp & Hpa & _ & Hm' & He & Hs & _).
  repeat split; try assumption.
  - unfold meaningful in Hm. apply andb_true_iff in Hm as [_ Hm].
    apply negb_true_iff, Nat.ltb_ge in Hm. exact Hm.
  - exists p, an. split; assumption.
Qed.

Lemma analyze_real_analysis_requires_witness :
  authorize (env_internal (Some "sk-test") (reply_ok 7)) store0 "f47ac10b-58cc" = AuthOk.
Proof.
  refine (proj1 (proj2 (analyze_real_analysis_requires
            (req "f47ac10b-58cc" (TArray transcript1) (Some 120))
            (env_internal (Some "sk-test") (reply_ok 7)) store0 _ _ _ _))).
  reflexivity.
Defined.

(** The analysis answered on the success path is the provider's object with
    [id] set to the session id, [duration] to the whole minutes of the
    request's duration (0 when absent) and [date] to the current time;
    every other key reads as in the provider's object. *)
Theorem analyze_final_analysis_fields (rq : AnalysisRequest) (env : Env) (st : Store)
    (a : list (string * Json.t)) (m : option AnalysisMetrics) (e : option string) :
  body (fst (POST (Some rq) env st)) = BAnalysis (JObj a) m false e ->
  get "id" a = Some (JStr (sessionId rq)) /\
  get "duration" a = Some (JNum (inject_Z (Qfloor (Js.or_num (duration rq) 0 / 60)))) /\
  get "date" a = Some (JStr (now_iso env)) /\
  exists p an, provider env = ProvContent p /\ parseAnalysisResponse p = Some an /\
    forall k, k <> "id" -> k <> "duration" -> k <> "date" -> get k a = get k an.
Proof.
  intros Hb.
  destruct (POST_success_inv rq env st _ m e Hb)
    as (_ & _ & _ & _ & p & an & Hp & Hpa & Ha & _).
  injection Ha as ->.
  split; [|split; [|split]].
  - rewrite !get_set_other by reflexivity. apply get_set_same.
  - rewrite get_set_other by reflexivity. apply get_set_same.
  - apply get_set_same.
  - exists p, an. split; [assumption|]. split; [assumption|].
    intros k H1 H2 H3.
    rewrite !get_set_other by (apply String.eqb_neq; assumption). reflexivity.
Qed.

Lemma analyze_final_analysis_fields_witness :
  match body (fst (POST (Some (req "f47ac10b-58cc" (TArray transcript1) (Some 120)))
                        (env_internal (Some "sk-test") (reply_ok 7)) store0)) with
  | BAnalysis (JObj a) _ _ _ => get "id" a
  | _ => None
  end = Some (JStr "f47ac10b-58cc").
Proof.
  refine (proj1 (analyze_final_analysis_fields
            (req "f47ac10b-58cc" (TArray transcript1) (Some 120))
            (env_internal (Some "sk-test") (reply_ok 7)) store0 _ _ _ _)).
  reflexivity.
Defined.

(** On the success path the database block either gives up before its
    first write (the provider's [detailedAnalysis] is a truthy non-string)
    and the store is unchanged, or it marks every session row of the id as
    analyzed and completed at the current time, keeps the other rows, and
    neither adds nor removes a row. *)
Theorem analyze_success_marks_session (rq : AnalysisRequest) (env : Env) (st : Store)
    (a : list (string * Json.t)) (m : option AnalysisMetrics) (e : option string) :
  body (fst (POST (Some rq) env st)) = BAnalysis (JObj a) m false e ->
  (feedback_summary a = None -> snd (POST (Some rq) env st) = st) /\
  (feedback_summary a <> None ->
   map s_id (st_sessions (snd (POST (Some rq) env st))) = map s_id (st_sessions st) /\
   forall r, In r (st_sessions (snd (POST (Some rq) env st))) ->
     if String.eqb (s_id r) (sessionId rq)
     then s_status r = "analyzed" /\ s_processing_status r = "completed" /\
          s_analyzed_at r = Some (now_iso env)
     else In r (st_sessions st)).
Proof.
  intros Hb.
  destruct (POST_success_inv rq env st _ m e Hb)
    as (_ & _ & _ & _ & p & an & _ & _ & Ha & _ & _ & _ & Hs).
  injection Ha as ->. rewrite Hs. split.
  - intros Hn.
    assert (Hn' : feedback_summary an = None)
      by (rewrite <- (feedback_summary_final env rq an); exact Hn).
    unfold persist. rewrite Hn'. reflexivity.
  - intros Hn. destruct (feedback_summary_final_some env rq an Hn) as [fb Hfb].
    rewrite (persist_sessions _ _ _ _ _ _ _ Hfb). split.
    + rewrite map_map. apply map_ext. intros r.
      destruct (String.eqb (s_id r) (sessionId rq)); reflexivity.
    + intros r Hin. apply in_map_iff in Hin as (x & <- & Hx).
      destruct (String.eqb (s_id x) (sessionId rq)) eqn:E; cbn [s_id]; rewrite E.
      * cbn. repeat split.
      * exact Hx.
Qed.

Lemma analyze_success_marks_session_witness :
  map s_id (st_sessions (snd (POST (Some (req "f47ac10b-58cc" (TArray transcript1) (Some 120)))
                                   (env_internal (Some "sk-test") (reply_ok 7)) store0))) =
  ["f47ac10b-58cc"].
Proof.
  refine (proj1 (proj2 (analyze_success_marks_session
            (req "f47ac10b-58cc" (TArray transcript1) (Some 120))
            (env_internal (Some "sk-test") (reply_ok 7)) store0 _ _ _ _) _)).
  all: try reflexivity.
  vm_compute. discriminate.
Defined.

(** On the success path, when the database block runs and the session had
    at most one analytics row, it has exactly one afterwards, holding the
    answered metrics and the current time. *)
Theorem analyze_success_analytics_row (rq : AnalysisRequest) (env : Env) (st : Store)
    (a : list (string * Json.t)) (m : option AnalysisMetrics) (e : option string) :
  (length (filter (fun r => String.eqb (an_session_id r) (sessionId rq))
                  (st_session_analytics st)) <= 1)%nat ->
  body (fst (POST (Some rq) env st)) = BAnalysis (JObj a) m false e ->
  feedback_summary a <> None ->
  exists row,
    filter (fun r => String.eqb (an_session_id r) (sessionId rq))
           (st_session_analytics (snd (POST (Some rq) env st))) = [row] /\
    m = Some (an_metrics row) /\ an_created_at row = now_iso env.
Proof.
  intros Hlen Hb Hn.
  destruct (POST_success_inv rq env st _ m e Hb)
    as (_ & _ & _ & _ & p & an & _ & _ & Ha & Hm & _ & _ & Hs).
  injection Ha as ->. rewrite Hs.
  destruct (feedback_summary_final_some env rq an Hn) as [fb Hfb].
  destruct (persist_analytics_row env st (sessionId rq)
              (generateAnalysisMetrics (fst (normalize_transcript (transcript rq)))
                                       (Js.or_num (duration rq) 0)) an
              (set "date" (JStr (now_iso env))
                 (set "duration" (JNum (inject_Z (Qfloor (Js.or_num (duration rq) 0 / 60))))
                    (set "id" (JStr (sessionId rq)) an))) fb Hfb Hlen)
    as (row & Hrow & Hmet & Han & Hat & _).
  exists row. rewrite Hm, Hmet.
  split; [exact Hrow|]. split; [reflexivity | exact Hat].
Qed.

Lemma analyze_success_analytics_row_witness :
  exists row,
    filter (fun r => String.eqb (an_session_id r) "f47ac10b-58cc")
           (st_session_analytics (snd (POST (Some (req "f47ac10b-58cc" (TArray transcript1) (Some 120)))
                                            (env_internal (Some "sk-test") (reply_ok 7)) store0))) = [row] /\
    Some (generateAnalysisMetrics transcript1 120) = Some (an_metrics row) /\
    an_created_at row = "2026-10-17T00:00:00.000Z".
Proof.
  refine (analyze_success_analytics_row
            (req "f47ac10b-58cc" (TArray transcript1) (Some 120))
            (env_internal (Some "sk-test") (reply_ok 7)) store0 _ _ _
            ltac:(vm_compute; lia) _ _).
  all: try reflexivity.
  vm_compute. discriminate.
Defined.

End AnalyzeSuccess.

(** ** The session read route *)
Section GetFacts.
Import Metrics Json Analyze Observe Samples SessionGet.

Lemma single_filter_in {A} (p : A -> bool) (l : list A) (x : A) :
  single (filter p l) = Some x -> In x l /\ p x = true /\ filter p l = [x].
Proof.
  unfold single. destruct (filter p l) as [|y [|z r]] eqn:F; try discriminate.
  intros H. injection H as ->.
  assert (Hin : In x (filter p l)) by (rewrite F; left; reflexivity).
  apply filter_In in Hin as [Hin Hp]. auto.
Qed.

(** A 200 answer of the read route for a session id that is not a
    ["demo-"] one carries a stored session row with that id, owned by the
    profile of the caller's non-empty authorization header, the analytics
    row of that session if any, and the same value as its detailed analysis
    and its analysis. *)
Theorem GET_session_owned (sid : string) (env : GetEnv) (st : Store) :
  Js.startsWith sid "demo-" = false ->
  g_status (GET sid env st) = 200%N ->
  exists h uid pid s da mt,
    g_authorization env = Some h /\ h <> EmptyString /\ g_getUser env h = Some uid /\
    g_profile_by_auth_id env uid = Some pid /\
    g_body (GET sid env st) = GSession s da mt da /\
    s_id s = sid /\ s_profile_id s = Some pid /\ In s (st_sessions st) /\
    (forall row, mt = Some row -> an_session_id row = sid /\ In row (st_session_analytics st)).
Proof.
  intros Hd. unfold GET. rewrite Hd.
  destruct (g_authorization env) as [h|] eqn:Hh; [|intros H; discriminate H].
  destruct (negb (Js.truthy_str (Some h))) eqn:Ht; [intros H; discriminate H|].
  destruct (g_getUser env h) as [uid|] eqn:Hu; [|intros H; discriminate H].
  destruct (g_profile_by_auth_id env uid) as [pid|] eqn:Hp; [|intros H; discriminate H].
  destruct (single (session_by_owner st sid pid)) as [s|] eqn:Hs; [|intros H; discriminate H].
  intros _. unfold session_by_owner in Hs.
  destruct (single_filter_in _ _ _ Hs) as (Hin & Hps & _).
  apply andb_true_iff in Hps as [Hid Hpr]. apply String.eqb_eq in Hid.
  destruct (s_profile_id s) as [p|] eqn:Hsp; [|discriminate Hpr].
  apply String.eqb_eq in Hpr. subst p.
  do 6 eexists. split; [first [exact Hh | reflexivity]|].
  split; [intros E; subst h; vm_compute in Ht; discriminate Ht|].
  split; [exact Hu|]. split; [exact Hp|]. split; [reflexivity|].
  split; [exact Hid|]. split; [exact Hsp|]. split; [exact Hin|].
  intros row Hrow.
  destruct (single_filter_in _ _ _ Hrow) as (Hin' & Hk & _).
  apply String.eqb_eq in Hk. split; assumption.
Qed.

Lemma GET_session_owned_witness :
  exists h uid pid s da mt,
    g_authorization {| g_authorization := Some "Bearer t"; g_getUser := fun _ => Some "u1";
                       g_profile_by_auth_id := fun _ => Some "p1" |} = Some h /\
    h <> EmptyString /\
    g_getUser {| g_authorization := Some "Bearer t"; g_getUser := fun _ => Some "u1";
                 g_profile_by_auth_id := fun _ => Some "p1" |} h = Some uid /\
    g_profile_by_auth_id {| g_authorization := Some "Bearer t"; g_getUser := fun _ => Some "u1";
                            g_profile_by_auth_id := fun _ => Some "p1" |} uid = Some pid /\
    g_body (GET "f47ac10b-58cc"
              {| g_authorization := Some "Bearer t"; g_getUser := fun _ => Some "u1";
                 g_profile_by_auth_id := fun _ => Some "p1" |} store0) = GSession s da mt da /\
    s_id s = "f47ac10b-58cc" /\ s_profile_id s = Some pid /\ In s (st_sessions store0) /\
    (forall row, mt = Some row -> an_session_id row = "f47ac10b-58cc" /\
                                  In row (st_session_analytics store0)).
Proof.
  apply (GET_session_owned "f47ac10b-58cc"
           {| g_authorization := Some "Bearer t"; g_getUser := fun _ => Some "u1";
              g_profile_by_auth_id := fun _ => Some "p1" |} store0 eq_refl).
  vm_compute. reflexivity.
Defined.

(** Analyze, then read: after an analyze call that answers a non-demo
    analysis and runs its database block (at most one analysis and one
    analytics row per session before), the owner of the session reads it
    back with status 200 as analyzed and completed, with the answered
    analysis as its detailed analysis and analysis, and with an analytics
    row holding the answered metrics. *)
Theorem analyze_then_get (rq : AnalysisRequest) (env : Env) (st : Store)
    (a : list (string * Json.t)) (m : option AnalysisMetrics) (e : option string)
    (genv : GetEnv) (h uid pid : string) (s : SessionRow) :
  body (fst (POST (Some rq) env st)) = BAnalysis (JObj a) m false e ->
  feedback_summary a <> None ->
  (length (rows_for (sessionId rq) st) <= 1)%nat ->
  (length (filter (fun r => String.eqb (an_session_id r) (sessionId rq))
                  (st_session_analytics st)) <= 1)%nat ->
  g_authorization genv = Some h -> h <> EmptyString ->
  g_getUser genv h = Some uid -> g_profile_by_auth_id genv uid = Some pid ->
  single (session_by_owner st (sessionId rq) pid) = Some s ->
  exists s' row,
    GET (sessionId rq) genv (snd (POST (Some rq) env st)) =
      {| g_status := 200; g_body := GSession s' (JObj a) (Some row) (JObj a) |} /\
    s_id s' = sessionId rq /\ s_status s' = "analyzed" /\
    s_processing_status s' = "completed" /\ m = Some (an_metrics row).
Proof.
  intros Hb Hn Hl1 Hl2 Hauth Hh Hu Hp Hs1.
  destruct (POST_success_inv rq env st _ m e Hb)
    as (Hd & _ & _ & _ & p0 & an & _ & _ & Ha & Hm & _ & _ & Hs).
  assert (Ha' : a = set "date" (JStr (now_iso env))
                      (set "duration" (JNum (inject_Z (Qfloor (Js.or_num (duration rq) 0 / 60))))
                         (set "id" (JStr (sessionId rq)) an)))
    by (injection Ha; auto).
  subst a. clear Ha. rewrite Hs.
  destruct (feedback_summary_final_some env rq an Hn) as [fb Hfb].
  assert (Hfb' : feedback_summary an <> None) by congruence.
  destruct (proj2 (proj2 (rows_for_persist env st (sessionId rq) (sessionId rq)
              (generateAnalysisMetrics (fst (normalize_transcript (transcript rq)))
                                       (Js.or_num (duration rq) 0)) an
              (set "date" (JStr (now_iso env))
                 (set "duration" (JNum (inject_Z (Qfloor (Js.or_num (duration rq) 0 / 60))))
                    (set "id" (JStr (sessionId rq)) an))))) Hfb' Hl1)
    as (arow & Harow & Hres).
  destruct (persist_analytics_row env st (sessionId rq)
              (generateAnalysisMetrics (fst (normalize_transcript (transcript rq)))
                                       (Js.or_num (duration rq) 0)) an
              (set "date" (JStr (now_iso env))
                 (set "duration" (JNum (inject_Z (Qfloor (Js.or_num (duration rq) 0 / 60))))
                    (set "id" (JStr (sessionId rq)) an))) fb Hfb Hl2)
    as (row & Hrow & Hmet & _).
  unfold session_by_owner in Hs1.
  destruct (single_filter_in _ _ _ Hs1) as (_ & Hps & Hf).
  apply andb_true_iff in Hps as [Hid _].
  unfold rows_for in Harow.
  unfold GET. rewrite Hd, Hauth.
  assert (Ht : Js.truthy_str (Some h) = true)
    by (unfold Js.truthy_str; rewrite (proj2 (String.eqb_neq _ _) Hh); reflexivity).
  rewrite Ht. cbn [negb]. rewrite Hu, Hp.
  unfold session_by_owner. rewrite (persist_sessions _ _ _ _ _ _ _ Hfb).
  rewrite filter_map_invariant
    by (intros x; destruct (String.eqb (s_id x) (sessionId rq)) eqn:E;
        cbn [s_id s_profile_id]; rewrite ?E; reflexivity).
  rewrite Hf, Harow, Hrow. cbn [map single]. rewrite Hres. cbn [truthy].
  rewrite Hid. eexists. exists row. split; [reflexivity|].
  cbn [s_id s_status s_processing_status].
  apply String.eqb_eq in Hid.
  split; [exact Hid|]. split; [reflexivity|]. split; [reflexivity|].
  rewrite Hm, Hmet. reflexivity.
Qed.

Lemma analyze_then_get_witness :
  exists s' row,
    GET "f47ac10b-58cc"
        {| g_authorization := Some "Bearer t"; g_getUser := fun _ => Some "u1";
           g_profile_by_auth_id := fun _ => Some "p1" |}
        (snd (POST (Some (req "f47ac10b-58cc" (TArray transcript1) (Some 120)))
                   (env_internal (Some "sk-test") (reply_ok 7)) store0)) =
      {| g_status := 200;
         g_body := GSession s'
           (match body (fst (POST (Some (req "f47ac10b-58cc" (TArray transcript1) (Some 120)))
                                  (env_internal (Some "sk-test") (reply_ok 7)) store0)) with
            | BAnalysis a _ _ _ => a | BError _ => JNull end) (Some row)
           (match body (fst (POST (Some (req "f47ac10b-58cc" (TArray transcript1) (Some 120)))
                                  (env_internal (Some "sk-test") (reply_ok 7)) store0)) with
            | BAnalysis a _ _ _ => a | BError _ => JNull end) |} /\
    s_id s' = "f47ac10b-58cc" /\ s_status s' = "analyzed" /\
    s_processing_status s' = "completed" /\
    Some (generateAnalysisMetrics transcript1 120) = Some (an_metrics row).
Proof.
  refine (analyze_then_get (req "f47ac10b-58cc" (TArray transcript1) (Some 120))
            (env_internal (Some "sk-test") (reply_ok 7)) store0 _ _ _
            {| g_authorization := Some "Bearer t"; g_getUser := fun _ => Some "u1";
               g_profile_by_auth_id := fun _ => Some "p1" |} "Bearer t" "u1" "p1" _
            _ _ _ _ eq_refl _ eq_refl eq_refl _).
  all: try reflexivity.
  all: vm_compute; first [discriminate | lia | reflexivity].
Defined.

End GetFacts.

(** ** Dates, the results page and the mock analysis *)
Section MiscFacts.
Import SessionUtils Json Analyze SessionDates.

Lemma or_val_shape (a : option Json.t) (c : Json.t) :
  truthy (or_val a c) = true \/ or_val a c = c.
Proof.
  unfold or_val. destruct a as [v|]; [|right; reflexivity].
  destruct (truthy v) eqn:E; [left; exact E | right; reflexivity].
Qed.

Lemma or_val_some_truthy (v c : Json.t) :
  truthy v = true -> or_val (or_opt (Some v) None) c = v.
Proof. intros H. unfold or_val, or_opt. rewrite H, H. reflexivity. Qed.

Lemma or_val_some_null (v : Json.t) :
  v = JNull \/ truthy v = true -> or_val (or_opt (Some v) None) JNull = v.
Proof.
  intros [->|H]; [reflexivity|]. apply or_val_some_truthy. exact H.
Qed.

(** [normalizeDates] always yields a truthy [createdAt] when the current
    time is a non-empty string, and each other date is either [null] or a
    truthy value. *)
Theorem normalizeDates_shape (data : list (string * Json.t)) (now_iso : string) :
  now_iso <> EmptyString ->
  truthy (createdAt (normalizeDates data now_iso)) = true /\
  forall v, In v [endedAt (normalizeDates data now_iso); analyzedAt (normalizeDates data now_iso);
                  updatedAt (normalizeDates data now_iso); startedAt (normalizeDates data now_iso)] ->
            v = JNull \/ truthy v = true.
Proof.
  intros Hn. unfold normalizeDates. cbn [createdAt endedAt analyzedAt updatedAt startedAt].
  split.
  - destruct (or_val_shape (or_opt (get "createdAt" data) (get "created_at" data)) (JStr now_iso))
      as [H|H]; rewrite H; [reflexivity|].
    cbn. apply String.eqb_neq in Hn. rewrite Hn. reflexivity.
  - intros v Hv.
    repeat (destruct Hv as [<-|Hv];
            [match goal with |- or_val ?a ?c = _ \/ _ =>
               destruct (or_val_shape a c); [right | left]; assumption end|]).
    destruct Hv.
Qed.

Lemma normalizeDates_shape_witness :
  truthy (createdAt (normalizeDates [("created_at", JNull)] "2026-10-17T00:00:00.000Z")) = true.
Proof.
  apply (proj1 (normalizeDates_shape [("created_at", JNull)] "2026-10-17T00:00:00.000Z"
                  ltac:(discriminate))).
Defined.

(** Normalizing the dates of already normalized dates changes nothing: the
    camelCase keys are read back as they are, and the current time is not
    consulted again. *)
Theorem normalizeDates_idempotent (data : list (string * Json.t)) (now_iso now_iso' : string) :
  now_iso <> EmptyString ->
  normalizeDates (dates_obj (normalizeDates data now_iso)) now_iso' = normalizeDates data now_iso.
Proof.
  intros Hn.
  destruct (normalizeDates_shape data now_iso Hn) as [Hc Ho].
  remember (normalizeDates data now_iso) as d eqn:Ed. clear Ed.
  destruct d as [c en an up st]. cbn [createdAt endedAt analyzedAt updatedAt startedAt] in *.
  unfold normalizeDates, dates_obj. cbn [createdAt endedAt analyzedAt updatedAt startedAt].
  cbn [get String.eqb Ascii.eqb Bool.eqb andb].
  rewrite (or_val_some_truthy c (JStr now_iso') Hc).
  rewrite (or_val_some_null en (Ho en ltac:(simpl; auto))).
  rewrite (or_val_some_null an (Ho an ltac:(simpl; auto))).
  rewrite (or_val_some_null up (Ho up ltac:(simpl; auto))).
  rewrite (or_val_some_null st (Ho st ltac:(simpl; auto))).
  reflexivity.
Qed.

Lemma normalizeDates_idempotent_witness :
  normalizeDates (dates_obj (normalizeDates [("ended_at", JStr "2026-10-16T09:00:00Z")]
                                            "2026-10-17T00:00:00.000Z")) "2027-01-01T00:00:00.000Z" =
  normalizeDates [("ended_at", JStr "2026-10-16T09:00:00Z")] "2026-10-17T00:00:00.000Z".
Proof.
  apply normalizeDates_idempotent. discriminate.
Defined.

(** The results page loads a database session again exactly when its
    stored status is ["processing"], or ["completed"] without a truthy
    detailed analysis: [normalizeSessionStatus] never yields ['active'],
    so that half of the page's test never holds. *)
Theorem retries_iff (dbStatus : string) (detailedAnalysis : Json.t) :
  ResultsPage.retries dbStatus detailedAnalysis = true <->
  dbStatus = "processing" \/ (dbStatus = "completed" /\ truthy detailedAnalysis = false).
Proof.
  unfold ResultsPage.retries, normalizeSessionStatus.
  destruct (String.eqb_spec dbStatus "analyzed") as [->|N1].
  { cbn. split; [discriminate | intros [H|[H _]]; discriminate H]. }
  destruct (String.eqb_spec dbStatus "completed") as [->|N2].
  { destruct (truthy detailedAnalysis); cbn; split.
    - discriminate.
    - intros [H|[_ H]]; discriminate H.
    - intros _. right. split; reflexivity.
    - intros _. reflexivity. }
  destruct (String.eqb_spec dbStatus "active") as [->|N3].
  { cbn. split; [discriminate | intros [H|[H _]]; discriminate H]. }
  destruct (String.eqb_spec dbStatus "processing") as [->|N4].
  { cbn. split; [intros _; left; reflexivity | intros _; reflexivity]. }
  assert (Hr : ~ (dbStatus = "processing" \/
                  (dbStatus = "completed" /\ truthy detailedAnalysis = false)))
    by (intros [H|[H _]]; contradiction).
  destruct (String.eqb dbStatus "demo"); [|destruct (String.eqb dbStatus "archived")];
    cbn; split; try discriminate; intros H; contradiction.
Qed.

(** The mock analysis is an object whose [id] is ["demo-"] followed by the
    current time in milliseconds, whose [date] is the current time, whose
    [overallScore] is a whole number from 5 to 8 and whose [duration] is a
    whole number from 15 to 24. *)
Theorem generateMockAnalysis_ranges (userInfo : option UserInfo) (r : MockRandom)
    (now_ms : N) (now_iso : string) :
  exists f,
    generateMockAnalysis userInfo r now_ms now_iso = JObj f /\
    get "id" f = Some (JStr ("demo-" ++ Js.show_N now_ms)) /\
    get "date" f = Some (JStr now_iso) /\
    (exists sc, get "overallScore" f = Some (JNum (inject_Z sc)) /\ (5 <= sc <= 8)%Z) /\
    (exists du, get "duration" f = Some (JNum (inject_Z du)) /\ (15 <= du <= 24)%Z).
Proof.
  unfold generateMockAnalysis. cbv zeta.
  eexists. split; [reflexivity|].
  cbn [get String.eqb Ascii.eqb Bool.eqb andb].
  split; [reflexivity|]. split; [reflexivity|]. split.
  - destruct (draw_val_bounds (r_score0 r)) as [A0 A1].
    destruct (draw_val_bounds (r_score1 r)) as [C0 C1].
    destruct (Z.to_nat (Qfloor (draw_val (r_scenario r) * 2))) as [|[|n]]; [| |destruct n];
      cbn [nth scenarios sc_overallScore scenario0 scenario1];
      eexists; (split; [reflexivity|]);
      apply Qfloor_between; rewrite ?inject_Z_plus; unfold inject_Z; lra.
  - destruct (draw_val_bounds (r_duration r)) as [D0 D1].
    eexists. split; [reflexivity|].
    apply Qfloor_between; rewrite ?inject_Z_plus; unfold inject_Z; lra.
Qed.

End MiscFacts.
